(** * python-packages/adb/device.py: a shallow embedding

    The module is Python 2 code: every piece of text it handles is a byte
    string ([str]), integers are unbounded, and failures are exceptions.
    Byte strings are lists of 8-bit characters, Python integers are [Z],
    the finished external processes are answers of a [host], and a raised
    exception is the [Raise] branch of an [outcome]. *)

From Stdlib Require Import ZArith List Ascii String Bool Lia DecimalString.
From stdpp Require Import base option list gmap strings.

Set Default Proof Using "Type".

(** ** Byte strings and the built-ins the module calls on them *)

Module Py.

Definition str := list ascii.

(** A literal of the source, written as a Rocq string. *)
Definition lit (s : string) : str := list_ascii_of_string s.

Definition LF : ascii := ascii_of_nat 10.
Definition CR : ascii := ascii_of_nat 13.
Definition DQUOTE : ascii := ascii_of_nat 34.
Definition TAB : ascii := ascii_of_nat 9.

(** [len(s)] *)
Definition len {A : Type} (l : list A) : Z := Z.of_nat (length l).

(** How a slice bound [i] is normalised against a sequence of length [n]:
    a negative bound counts from the end, and the result is clipped to
    [0..n]. *)
Definition slice_index (n i : Z) : nat :=
  let i := if (i <? 0)%Z then (i + n)%Z else i in
  Z.to_nat (Z.min n (Z.max 0 i)).

(** [s[i:]] *)
Definition slice_from {A : Type} (i : Z) (l : list A) : list A :=
  drop (slice_index (len l) i) l.

(** [s[:j]] *)
Definition slice_to {A : Type} (j : Z) (l : list A) : list A :=
  take (slice_index (len l) j) l.

(** [s.startswith(p)] *)
Fixpoint startswith (p s : str) : bool :=
  match p, s with
  | [], _ => true
  | _ :: _, [] => false
  | a :: p', c :: s' => if Ascii.eqb a c then startswith p' s' else false
  end.

(** [sub in s] on byte strings: substring search. *)
Fixpoint contains (sub s : str) : bool :=
  match s with
  | [] => startswith sub []
  | _ :: s' => startswith sub s || contains sub s'
  end.

(** [s.rfind(sep)]: the index of the last occurrence, if any. *)
Fixpoint rfind (sep s : str) : option nat :=
  match s with
  | [] => if startswith sep [] then Some 0 else None
  | _ :: s' =>
      match rfind sep s' with
      | Some i => Some (S i)
      | None => if startswith sep s then Some 0 else None
      end
  end.

(** [s.rpartition(sep)] for a non-empty separator: split at the last
    occurrence; when there is none the answer is [('', '', s)]. *)
Definition rpartition (sep s : str) : str * str * str :=
  match rfind sep s with
  | Some i => (take i s, sep, drop (i + length sep) s)
  | None => ([], [], s)
  end.

(** C [isspace] in the C locale, which is what [str.strip], [int] and the
    pattern [\s] use on byte strings: tab, LF, VT, FF, CR and space. *)
Definition isspace (c : ascii) : bool :=
  let n := nat_of_ascii c in
  ((9 <=? n) && (n <=? 13)) || (n =? 32).

Definition isdigit (c : ascii) : bool :=
  let n := nat_of_ascii c in
  (48 <=? n) && (n <=? 57).

Fixpoint lstrip (s : str) : str :=
  match s with
  | c :: s' => if isspace c then lstrip s' else s
  | [] => []
  end.

Definition rstrip (s : str) : str := rev (lstrip (rev s)).

(** [s.strip()] *)
Definition strip (s : str) : str := lstrip (rstrip s).

Fixpoint digits_value (acc : Z) (s : str) : option Z :=
  match s with
  | [] => Some acc
  | c :: s' =>
      if isdigit c
      then digits_value (10 * acc + (Z.of_nat (nat_of_ascii c) - 48))%Z s'
      else None
  end.

Definition unsigned_literal (s : str) : option Z :=
  match s with
  | [] => None
  | _ :: _ => digits_value 0 s
  end.

(** [int(s)] of Python 2 on a byte string, base 10: surrounding
    whitespace is dropped, one sign is allowed and may be followed by
    whitespace, and then at least one decimal digit must come and nothing
    else.  [None] stands for the [ValueError] of the built-in.  (A text of
    digits too long for a machine word takes another path in the
    interpreter; [_parse_shell_output] converts at most five
    characters.) *)
Definition int (s : str) : option Z :=
  match strip s with
  | c :: ds =>
      if Ascii.eqb c "-" then Z.opp <$> unsigned_literal (lstrip ds)
      else if Ascii.eqb c "+" then unsigned_literal (lstrip ds)
      else unsigned_literal (c :: ds)
  | [] => None
  end.

(** [s.splitlines()] on a byte string: lines end at LF, CR or CR LF, the
    terminators are dropped, and a terminator at the very end does not open
    another line.  [cur] holds the current line, reversed. *)
Fixpoint splitlines_from (cur s : str) : list str :=
  match s with
  | [] => match cur with [] => [] | _ :: _ => [rev cur] end
  | c :: s' =>
      if Ascii.eqb c LF then rev cur :: splitlines_from [] s'
      else if Ascii.eqb c CR then
        match s' with
        | c' :: s'' =>
            if Ascii.eqb c' LF then rev cur :: splitlines_from [] s''
            else rev cur :: splitlines_from [] s'
        | [] => rev cur :: splitlines_from [] s'
        end
      else splitlines_from (c :: cur) s'
  end.

Definition splitlines (s : str) : list str := splitlines_from [] s.

(** [sep.join(l)] *)
Fixpoint join (sep : str) (l : list str) : str :=
  match l with
  | [] => []
  | [x] => x
  | x :: l' => x ++ sep ++ join sep l'
  end.

(** [re.split(r'\s+', s, maxsplit=1)]: cut [s] at its first run of
    whitespace; without any whitespace the answer is [[s]]. *)
Fixpoint split_ws_once (s : str) : list str :=
  match s with
  | [] => [[]]
  | c :: s' =>
      if isspace c then [[]; lstrip s']
      else match split_ws_once s' with
           | [h; t] => [c :: h; t]
           | _ => [s]
           end
  end.

End Py.

Import Py.

(** ** Exceptions and results *)

Inductive exn : Type :=
| DeviceNotFoundError (serial : str)
| NoUniqueDeviceError
| ShellError (cmd : list str) (stdout stderr : str) (exit_code : Z)
| RuntimeError (msg : str)
| ValueError
| CalledProcessError (returncode : Z) (cmd : list str) (output : str).

Inductive outcome (A : Type) : Type :=
| Return (a : A)
| Raise (e : exn).
Arguments Return {A} a.
Arguments Raise {A} e.

(** ** Class constants of [AndroidDevice] *)

Definition _RETURN_CODE_DELIMITER : str := lit "x".

(** ['echo "{0}$?"'.format(_RETURN_CODE_DELIMITER)] *)
Definition _RETURN_CODE_PROBE_STRING : str :=
  lit "echo " ++ [DQUOTE] ++ _RETURN_CODE_DELIMITER ++ lit "$?" ++ [DQUOTE].

(** [len('{0}255\r\n'.format(_RETURN_CODE_DELIMITER))] *)
Definition _RETURN_CODE_SEARCH_LENGTH : Z :=
  len (_RETURN_CODE_DELIMITER ++ lit "255" ++ [CR; LF]).

Definition SHELL_PROTOCOL_FEATURE : str := lit "shell_v2".

(** ** [AndroidDevice._parse_shell_output] *)

Definition is_empty (s : str) : bool :=
  match s with [] => true | _ :: _ => false end.

Definition _parse_shell_output (out : str) : outcome (Z * str) :=
  let search_text := out in
  let search_text :=
    if (len search_text >? _RETURN_CODE_SEARCH_LENGTH)%Z
    then slice_from (- _RETURN_CODE_SEARCH_LENGTH) search_text
    else search_text in
  let '(_, partition1, partition2) :=
    rpartition _RETURN_CODE_DELIMITER search_text in
  if is_empty partition1
  then Raise (RuntimeError (lit "Could not find exit status in shell output."))
  else
    match int partition2 with
    | None => Raise ValueError
    | Some result =>
        Return (result, slice_to (- len partition1 - len partition2) out)
    end.

(** ** A state and exception monad

    Every function of the module that starts a process, reads or fills a
    cache of the handle, or may raise, is a computation over a state [S]
    that ends in an [outcome]; the state survives a raised exception. *)

Definition M (S A : Type) : Type := S -> outcome A * S.

Definition ret {S A : Type} (a : A) : M S A := fun s => (Return a, s).

Definition raise {S A : Type} (e : exn) : M S A := fun s => (Raise e, s).

Definition bind {S A B : Type} (m : M S A) (k : A -> M S B) : M S B :=
  fun s =>
    match m s with
    | (Return a, s') => k a s'
    | (Raise e, s') => (Raise e, s')
    end.

(** [try: m except ...: handler]; [handler e = None] when no [except]
    clause catches [e]. *)
Definition try_except {S A : Type} (m : M S A)
    (handler : exn -> option (M S A)) : M S A :=
  fun s =>
    match m s with
    | (Return a, s') => (Return a, s')
    | (Raise e, s') =>
        match handler e with
        | Some k => k s'
        | None => (Raise e, s')
        end
    end.

Definition of_result {S A : Type} (r : outcome A) : M S A := fun s => (r, s).

Notation "'let*' x ':=' m 'in' k" := (bind m (fun x => k))
  (at level 10, x name, m at level 100, k at level 200, only parsing).
Notation "'let*' ' p ':=' m 'in' k" := (bind m (fun x => let 'p := x in k))
  (at level 10, p pattern, m at level 100, k at level 200, only parsing).

(** ** The host: finished processes and the environment *)

(** What a finished process leaves behind.  [merged] is what it wrote when
    its standard error was redirected into its standard output. *)
Record completed : Type := {
  returncode : Z;
  stdout : str;
  stderr : str;
  merged : str }.

(** The processes started so far, oldest first. *)
Definition trace : Type := list (list str).

(** [run] answers a command line, given the command lines that were run
    before it; [environ] is [os.environ]. *)
Record host : Type := {
  run : trace -> list str -> completed;
  environ : str -> option str }.

(** [x in l] for a list of byte strings. *)
Definition list_in (x : str) (l : list str) : bool :=
  existsb (fun y => bool_decide (y = x)) l.

(** ** [AndroidDevice] objects *)

Record AndroidDevice : Type := {
  serial : option str;
  product : option str;
  adb_cmd : list str;
  _linesep : option str;
  _features : option (list str) }.

(** [AndroidDevice.__init__] *)
Definition AndroidDevice_init (serial product : option str) (adb_path : str)
    : AndroidDevice :=
  let adb_cmd := [adb_path] in
  let adb_cmd :=
    match serial with
    | Some s => adb_cmd ++ [lit "-s"; s]
    | None => adb_cmd
    end in
  let adb_cmd :=
    match product with
    | Some p => adb_cmd ++ [lit "-p"; p]
    | None => adb_cmd
    end in
  {| serial := serial; product := product; adb_cmd := adb_cmd;
     _linesep := None; _features := None |}.

Definition set_features (f : list str) (d : AndroidDevice) : AndroidDevice :=
  {| serial := serial d; product := product d; adb_cmd := adb_cmd d;
     _linesep := _linesep d; _features := Some f |}.

(** ** The [for] loops of the module, as recursive functions *)

(** The body of the loop of [get_devices] over [out[1:]]. *)
Fixpoint get_devices_loop (lines : list str) (devices : list str)
    : outcome (list str) :=
  match lines with
  | [] => Return devices
  | line :: lines' =>
      if is_empty (strip line) then get_devices_loop lines' devices
      else if contains (lit "offline") line
      then get_devices_loop lines' devices
      else
        match split_ws_once line with
        | [serial; _] => get_devices_loop lines' (devices ++ [serial])
        | _ => Raise ValueError
        end
  end.

Fixpoint take_until (stop : ascii -> bool) (s : str) : str :=
  match s with
  | c :: s' => if stop c then [] else c :: take_until stop s'
  | [] => []
  end.

(** [pattern.match(line)] for the pattern of [get_props], giving groups 1
    and 2.  The pattern is: start of text, an opening bracket, group 1
    (one or more characters other than a closing bracket), a closing
    bracket, a colon, a space, an opening bracket, group 2 (any number of
    [.]), a closing bracket.  Group 1 is the longest run of characters other than a closing
    bracket, and must not be empty; the literal text between the groups
    must follow it; group 2 is greedy, so it ends at the last closing
    bracket that [.] can reach, [.] being any character but LF.  Nothing
    anchors the end of the match. *)
Definition getprop_pattern_match (line : str) : option (str * str) :=
  match line with
  | c :: rest =>
      if Ascii.eqb c "[" then
        let key := take_until (Ascii.eqb "]") rest in
        let rest := drop (length key) rest in
        if is_empty key then None
        else if startswith (lit "]: [") rest then
          let reach := take_until (Ascii.eqb LF) (drop 4 rest) in
          match rfind (lit "]") reach with
          | Some i => Some (key, take i reach)
          | None => None
          end
        else None
      else None
  | [] => None
  end.

(** The loop of [get_props] over the lines of the output. *)
Fixpoint get_props_loop (output : list str) (result : gmap str str)
    : outcome (gmap str str) :=
  match output with
  | [] => Return result
  | line :: output' =>
      match getprop_pattern_match line with
      | None =>
          Raise (RuntimeError
                   (lit "invalid getprop line: " ++ [DQUOTE] ++ line ++ [DQUOTE]))
      | Some (key, value) =>
          if bool_decide (is_Some (result !! key))
          then Raise (RuntimeError
                        (lit "duplicate getprop key: " ++ [DQUOTE] ++ key ++ [DQUOTE]))
          else get_props_loop output' (<[key := value]> result)
      end
  end.

Section Host.

Variable h : host.

(** *** [subprocess], on a host other than Windows *)

(** Start a process with the given command line and wait for it.  The
    host is one on which the program can be executed: a start that fails,
    for which [subprocess] raises [OSError], is outside the model, and
    the properties below speak of processes by what they report, or of
    calls that return. *)
Definition spawn (args : list str) : M trace completed :=
  fun t => (Return (run h t args), t ++ [args]).

(** [subprocess.check_call(args, stdout=devnull, stderr=devnull)]; the
    exception it raises holds no output, written [[]] here. *)
Definition check_call (args : list str) : M trace Z :=
  let* p := spawn args in
  if (returncode p =? 0)%Z then ret 0%Z
  else raise (CalledProcessError (returncode p) args []).

(** [subprocess.check_output(args)] *)
Definition check_output (args : list str) : M trace str :=
  let* p := spawn args in
  if (returncode p =? 0)%Z then ret (stdout p)
  else raise (CalledProcessError (returncode p) args (stdout p)).

(** [subprocess.check_output(args, stderr=subprocess.STDOUT)] *)
Definition check_output_STDOUT (args : list str) : M trace str :=
  let* p := spawn args in
  if (returncode p =? 0)%Z then ret (merged p)
  else raise (CalledProcessError (returncode p) args (merged p)).

(** [_subprocess_check_output(args, stderr=subprocess.STDOUT)].  Off
    Windows [_get_windows_unicode_helper] returns [None], the arguments go
    through unchanged, and a [CalledProcessError] is raised again with the
    command line that was asked for. *)
Definition _subprocess_check_output (args : list str) : M trace str :=
  try_except (check_output_STDOUT args)
    (fun e =>
       match e with
       | CalledProcessError rc _ output =>
           Some (raise (CalledProcessError rc args output))
       | _ => None
       end).

(** *** Module-level functions *)

Definition get_devices (adb_path : str) : M trace (list str) :=
  let* _ := check_call [adb_path; lit "start-server"] in
  let* out := check_output [adb_path; lit "devices"] in
  let out := splitlines out in
  of_result (get_devices_loop (slice_from 1 out) []).

Definition _get_unique_device (product : option str) (adb_path : str)
    : M trace AndroidDevice :=
  let* devices := get_devices adb_path in
  match devices with
  | [d] => ret (AndroidDevice_init (Some d) product adb_path)
  | _ => raise NoUniqueDeviceError
  end.

Fixpoint _get_device_by_serial_loop (devices : list str) (serial : str)
    (product : option str) (adb_path : str) : outcome AndroidDevice :=
  match devices with
  | [] => Raise (DeviceNotFoundError serial)
  | device :: devices' =>
      if bool_decide (device = serial)
      then Return (AndroidDevice_init (Some serial) product adb_path)
      else _get_device_by_serial_loop devices' serial product adb_path
  end.

Definition _get_device_by_serial (serial : str) (product : option str)
    (adb_path : str) : M trace AndroidDevice :=
  let* devices := get_devices adb_path in
  of_result (_get_device_by_serial_loop devices serial product adb_path).

Definition get_device (serial product : option str) (adb_path : str)
    : M trace AndroidDevice :=
  match serial with
  | Some serial => _get_device_by_serial serial product adb_path
  | None =>
      let android_serial := environ h (lit "ANDROID_SERIAL") in
      match android_serial with
      | Some android_serial =>
          _get_device_by_serial android_serial product adb_path
      | None => _get_unique_device product adb_path
      end
  end.

(** *** Methods of [AndroidDevice]

    A method runs on the handle and the trace together. *)

Definition D (A : Type) : Type := M (AndroidDevice * trace) A.

Definition on_host {A : Type} (m : M trace A) : D A :=
  fun s => let '(r, t) := m (snd s) in (r, (fst s, t)).

Definition self : D AndroidDevice := fun s => (Return (fst s), s).

Definition update_self (f : AndroidDevice -> AndroidDevice) : D unit :=
  fun s => (Return tt, (f (fst s), snd s)).

Definition _simple_call (cmd : list str) : D str :=
  let* d := self in
  on_host (_subprocess_check_output (adb_cmd d ++ cmd)).

(** The [features] property. *)
Definition features : D (list str) :=
  let* d := self in
  match _features d with
  | Some f => ret f
  | None =>
      let* f :=
        try_except
             (let* out := _simple_call [lit "features"] in
              ret (splitlines out))
             (fun e =>
                match e with
                | CalledProcessError _ _ _ => Some (ret [])
                | _ => None
                end) in
      let* _ := update_self (set_features f) in
      ret f
  end.

Definition _make_shell_cmd (user_cmd : list str) : D (list str) :=
  let* d := self in
  let command := adb_cmd d ++ [lit "shell"] ++ user_cmd in
  let* fs := features in
  if negb (list_in SHELL_PROTOCOL_FEATURE fs)
  then ret (command ++ [lit "; " ++ _RETURN_CODE_PROBE_STRING])
  else ret command.

Definition shell_nocheck (cmd : list str) : D (Z * str * str) :=
  let* cmd := _make_shell_cmd cmd in
  let* p := on_host (spawn cmd) in
  let stdout := stdout p in
  let stderr := stderr p in
  let* fs := features in
  if list_in SHELL_PROTOCOL_FEATURE fs
  then ret (returncode p, stdout, stderr)
  else
    let* '(exit_code, stdout) := of_result (_parse_shell_output stdout) in
    ret (exit_code, stdout, stderr).

Definition shell (cmd : list str) : D (str * str) :=
  let* '(exit_code, stdout, stderr) := shell_nocheck cmd in
  if negb (exit_code =? 0)%Z
  then raise (ShellError cmd stdout stderr exit_code)
  else ret (stdout, stderr).

Definition get_props : D (gmap str str) :=
  let* '(output, _) := shell [lit "getprop"] in
  let output := splitlines output in
  of_result (get_props_loop output ∅).

(** [None] is Python's [None]. *)
Definition get_prop (prop_name : str) : D (option str) :=
  let* '(output, _) := shell [lit "getprop"; prop_name] in
  let output := splitlines output in
  match output with
  | [value] =>
      if is_empty (strip value) then ret None else ret (Some value)
  | _ =>
      raise (RuntimeError
               (lit "Too many lines in getprop output:" ++ [LF]
                  ++ join [LF] output))
  end.

(** *** Further functions of the module *)

(** [_get_device_by_type]; [get_usb_device] and [get_emulator_device] call
    it with the flags [-d] and [-e]. *)
Definition _get_device_by_type (flag adb_path : str) : M trace AndroidDevice :=
  let* _ := check_call [adb_path; lit "start-server"] in
  let* serial :=
    try_except
      (let* out := check_output [adb_path; flag; lit "get-serialno"] in
       ret (strip out))
      (fun e =>
         match e with
         | CalledProcessError _ _ _ =>
             Some (raise (RuntimeError (lit "adb unexpectedly returned nonzero")))
         | _ => None
         end) in
  if bool_decide (serial = lit "unknown") then raise NoUniqueDeviceError
  else _get_device_by_serial serial None adb_path.

Definition get_usb_device (adb_path : str) : M trace AndroidDevice :=
  _get_device_by_type (lit "-d") adb_path.

Definition get_emulator_device (adb_path : str) : M trace AndroidDevice :=
  _get_device_by_type (lit "-e") adb_path.

Definition set_linesep (l : str) (d : AndroidDevice) : AndroidDevice :=
  {| serial := serial d; product := product d; adb_cmd := adb_cmd d;
     _linesep := Some l; _features := _features d |}.

(** The [linesep] property. *)
Definition linesep : D str :=
  let* d := self in
  match _linesep d with
  | Some l => ret l
  | None =>
      let* out := on_host (check_output (adb_cmd d ++ [lit "shell"; lit "echo"])) in
      let* _ := update_self (set_linesep out) in
      ret out
  end.

End Host.

(** ** Notions the statements below are written with *)

(** The part of the output that is searched: its last
    [_RETURN_CODE_SEARCH_LENGTH] characters, or all of it when it is
    shorter. *)
Definition trailing_window (out : str) : str :=
  drop (length out - Z.to_nat _RETURN_CODE_SEARCH_LENGTH) out.

(** The one character of [_RETURN_CODE_DELIMITER]. *)
Definition delimiter : ascii := "x".

(** The decimal text of a natural number, as a shell prints [$?]. *)
Definition decimal (n : Z) : str :=
  lit (NilZero.string_of_uint (N.to_uint (Z.to_N n))).

Definition exit_code_text_ok (n : Z) : bool :=
  bool_decide (delimiter ∉ decimal n)
  && (length (decimal n) <? Z.to_nat _RETURN_CODE_SEARCH_LENGTH)
  && bool_decide (int (decimal n) = Some n).

(** A line of the form [[key]: [value]]. *)
Definition getprop_line (key value : str) : str :=
  lit "[" ++ key ++ lit "]: [" ++ value ++ lit "]".

(** [line] begins with [[key]: [value]]: the key is not empty and holds
    no closing bracket, and the bracket that closes the value is the last
    one on the line (the lines of [splitlines] hold no LF, so [.] of the
    pattern reaches their end). *)
Definition begins_with_getprop_form (line key value : str) : Prop :=
  exists rest,
    line = getprop_line key value ++ rest /\
    key ≠ [] /\ ("]"%char ∉ key) /\ (LF ∉ value) /\
    ("]"%char ∉ take_until (Ascii.eqb LF) rest).

(** A host for examples: every process exits with status zero, writes
    [out] to its standard output and nothing to its standard error;
    [feats] is what it writes when the two streams are merged, which is
    all the [features] query reads; [env] is the value of every
    environment variable. *)
Definition sample_host (feats out : str) (env : option str) : host :=
  {| run := fun _ _ =>
       {| returncode := 0; stdout := out; stderr := []; merged := feats |};
     environ := fun _ => env |}.

Definition sample_device : AndroidDevice :=
  AndroidDevice_init (Some (lit "abc123")) None (lit "adb").

(** A line of a device listing: serial, a tab, state. *)
Definition device_line (serial state : str) : str :=
  serial ++ [TAB] ++ state.

(** No character of [s] is whitespace. *)
Definition no_space (s : str) : Prop :=
  forall c, c ∈ s -> isspace c = false.

(** [s] holds no line terminator. *)
Definition no_eol (s : str) : Prop := (LF ∉ s) /\ (CR ∉ s).

(** The line ends that [splitlines] takes off a last line. *)
Definition line_ends : list str := [[]; [LF]; [CR]; [CR; LF]].

Definition exit_code_line_ok (eol : str) (n : Z) : bool :=
  bool_decide (delimiter ∉ decimal n ++ eol)
  && (length (decimal n ++ eol) <? Z.to_nat _RETURN_CODE_SEARCH_LENGTH)
  && bool_decide (int (decimal n ++ eol) = Some n).

(** * Properties *)

(** ** Facts about the built-ins *)

Section Builtins.

Implicit Types (c : ascii) (s p h t : str).

Lemma rfind_char_None c s : c ∉ s -> rfind [c] s = None.
Proof.
  induction s as [|a s IH]; intros Hc; simpl; [done|].
  apply not_elem_of_cons in Hc as [Hne Hs].
  rewrite (IH Hs).
  destruct (Ascii.eqb_spec c a); [done|]. by destruct s.
Qed.

Lemma rfind_char_last c h t :
  c ∉ t -> rfind [c] (h ++ c :: t) = Some (length h).
Proof.
  intros Hc. induction h as [|a h IH]; simpl.
  - rewrite (rfind_char_None c t Hc), Ascii.eqb_refl. by destruct t.
  - replace (h ++ c :: t) with (h ++ [c] ++ t) in * by done.
    by rewrite IH.
Qed.

Lemma rpartition_char_last c h t :
  c ∉ t -> rpartition [c] (h ++ c :: t) = (h, [c], t).
Proof.
  intros Hc. unfold rpartition. rewrite (rfind_char_last c h t Hc).
  rewrite take_app_length. f_equal.
  replace (h ++ c :: t) with ((h ++ [c]) ++ t) by by rewrite <- app_assoc.
  apply drop_app_length'. rewrite length_app. simpl. lia.
Qed.

Lemma rpartition_char_absent c s : c ∉ s -> rpartition [c] s = ([], [], s).
Proof. intros Hc. unfold rpartition. by rewrite (rfind_char_None c s Hc). Qed.

Lemma slice_from_neg {A : Type} (k : nat) (l : list A) :
  0 < k -> slice_from (- Z.of_nat k) l = drop (length l - k) l.
Proof.
  intros Hk. unfold slice_from, slice_index, len. f_equal. cbv zeta.
  destruct (Z.ltb_spec (- Z.of_nat k) 0); lia.
Qed.

Lemma slice_to_neg {A : Type} (k : nat) (l : list A) :
  0 < k -> slice_to (- Z.of_nat k) l = take (length l - k) l.
Proof.
  intros Hk. unfold slice_to, slice_index, len. f_equal. cbv zeta.
  destruct (Z.ltb_spec (- Z.of_nat k) 0); lia.
Qed.

End Builtins.

(** ** What [_parse_shell_output] computes *)

Lemma RETURN_CODE_DELIMITER_char : _RETURN_CODE_DELIMITER = [delimiter].
Proof. reflexivity. Qed.

(** The text that is searched is the trailing window. *)
Lemma search_text_window (out : str) :
  (if (len out >? _RETURN_CODE_SEARCH_LENGTH)%Z
   then slice_from (- _RETURN_CODE_SEARCH_LENGTH) out
   else out) = trailing_window out.
Proof.
  unfold trailing_window.
  change _RETURN_CODE_SEARCH_LENGTH with (Z.of_nat 6).
  rewrite Nat2Z.id.
  destruct (Z.gtb_spec (len out) (Z.of_nat 6)) as [Hgt|Hle].
  - apply slice_from_neg. lia.
  - unfold len in Hle. replace (length out - 6) with 0 by lia. done.
Qed.

Lemma parse_shell_output_window (out : str) :
  _parse_shell_output out =
    let '(_, partition1, partition2) :=
      rpartition _RETURN_CODE_DELIMITER (trailing_window out) in
    if is_empty partition1
    then Raise (RuntimeError (lit "Could not find exit status in shell output."))
    else
      match int partition2 with
      | None => Raise ValueError
      | Some result =>
          Return (result, slice_to (- len partition1 - len partition2) out)
      end.
Proof. unfold _parse_shell_output. by rewrite search_text_window. Qed.

Lemma parse_not_found (out : str) :
  delimiter ∉ trailing_window out ->
  _parse_shell_output out =
    Raise (RuntimeError (lit "Could not find exit status in shell output.")).
Proof.
  intros Hx. rewrite parse_shell_output_window.
  change _RETURN_CODE_DELIMITER with [delimiter].
  by rewrite rpartition_char_absent.
Qed.

Lemma parse_found_window (out w tail : str) :
  trailing_window out = w ++ delimiter :: tail ->
  delimiter ∉ tail ->
  exists pre,
    out = pre ++ delimiter :: tail /\
    _parse_shell_output out =
      match int tail with
      | Some n => Return (n, pre)
      | None => Raise ValueError
      end.
Proof.
  intros Hw Hx.
  exists (take (length out - S (length tail)) out).
  assert (Hout : out = take (length out - Z.to_nat _RETURN_CODE_SEARCH_LENGTH) out
                        ++ w ++ delimiter :: tail).
  { rewrite <- Hw. unfold trailing_window. by rewrite take_drop. }
  assert (Hlen : length out = length (take (length out - Z.to_nat _RETURN_CODE_SEARCH_LENGTH) out) + length w + S (length tail)).
  { rewrite Hout at 1. rewrite !length_app. simpl. lia. }
  split.
  - rewrite Hout at 3. rewrite app_assoc.
    rewrite Hout at 1. rewrite app_assoc. f_equal.
    rewrite take_app_length'; [done|]. rewrite length_app. lia.
  - rewrite parse_shell_output_window, Hw.
    change _RETURN_CODE_DELIMITER with [delimiter].
    rewrite rpartition_char_last by done. simpl.
    destruct (int tail) as [n|]; [|done].
    do 2 f_equal.
    replace (- len [delimiter] - len tail)%Z with (- Z.of_nat (S (length tail)))%Z
      by (unfold len; simpl; lia).
    apply slice_to_neg. lia.
Qed.

Lemma window_of_suffix (pre tail : str) :
  length tail < Z.to_nat _RETURN_CODE_SEARCH_LENGTH ->
  exists w, trailing_window (pre ++ delimiter :: tail) = w ++ delimiter :: tail.
Proof.
  intros Hlen. unfold trailing_window.
  exists (drop (length (pre ++ delimiter :: tail)
                - Z.to_nat _RETURN_CODE_SEARCH_LENGTH) pre).
  apply drop_app_le. rewrite length_app. simpl. lia.
Qed.

Lemma trailing_window_length (out : str) :
  length (trailing_window out) <= Z.to_nat _RETURN_CODE_SEARCH_LENGTH.
Proof. unfold trailing_window. rewrite length_drop. lia. Qed.

(** The output ends in the delimiter and a short text free of it. *)
Lemma parse_delimited (pre tail : str) :
  delimiter ∉ tail ->
  length tail < Z.to_nat _RETURN_CODE_SEARCH_LENGTH ->
  _parse_shell_output (pre ++ delimiter :: tail) =
    match int tail with
    | Some n => Return (n, pre)
    | None => Raise ValueError
    end.
Proof.
  intros Hx Hlen.
  destruct (window_of_suffix pre tail Hlen) as [w Hw].
  destruct (parse_found_window _ w tail Hw Hx) as (pre' & Hout & ->).
  apply app_inv_tail in Hout. by subst pre'.
Qed.

Lemma parse_return_inv (out cleaned : str) (n : Z) :
  _parse_shell_output out = Return (n, cleaned) ->
  exists tail,
    out = cleaned ++ delimiter :: tail /\
    (delimiter ∉ tail) /\
    length tail < Z.to_nat _RETURN_CODE_SEARCH_LENGTH /\
    int tail = Some n.
Proof.
  intros Hret.
  destruct (decide (delimiter ∈ trailing_window out)) as [Hin|Hnot].
  - apply list_elem_of_split_r in Hin as (w & tail & Hw & Hx).
    destruct (parse_found_window out w tail Hw Hx) as (pre & Hout & Hparse).
    rewrite Hparse in Hret. exists tail.
    destruct (int tail) as [m|]; [|done].
    injection Hret as -> ->. repeat split; try done.
    pose proof (trailing_window_length out) as Hlen.
    rewrite Hw, length_app in Hlen. simpl in Hlen. lia.
  - by rewrite parse_not_found in Hret.
Qed.

Lemma exit_code_texts_ok :
  forallb exit_code_text_ok (map Z.of_nat (seq 0 256)) = true.
Proof. vm_compute. reflexivity. Qed.

Lemma exit_code_text (n : Z) :
  (0 <= n <= 255)%Z ->
  (delimiter ∉ decimal n) /\
  length (decimal n) < Z.to_nat _RETURN_CODE_SEARCH_LENGTH /\
  int (decimal n) = Some n.
Proof.
  intros Hn.
  pose proof exit_code_texts_ok as Hall.
  rewrite forallb_forall in Hall.
  specialize (Hall n). unfold exit_code_text_ok in Hall.
  rewrite !andb_true_iff, !bool_decide_eq_true, Nat.ltb_lt in Hall.
  assert (Hin : In n (map Z.of_nat (seq 0 256))).
  { apply in_map_iff. exists (Z.to_nat n). split; [lia|]. apply in_seq. lia. }
  destruct (Hall Hin) as [[? ?] ?]. done.
Qed.


(** ** The handle's feature cache *)

Section Methods.

Variable h : host.

Lemma features_cached (d : AndroidDevice) (t : trace) (fs : list str) :
  _features d = Some fs -> features h (d, t) = (Return fs, (d, t)).
Proof. intros Hc. unfold features, bind, self. simpl. by rewrite Hc. Qed.

(** Reading [features] never raises, leaves the answer in the cache and
    does not touch the address arguments. *)
Lemma features_fills_cache (d : AndroidDevice) (t : trace) :
  exists fs d1 t1,
    features h (d, t) = (Return fs, (d1, t1)) /\
    _features d1 = Some fs /\ adb_cmd d1 = adb_cmd d.
Proof.
  destruct (_features d) as [fs|] eqn:Hc.
  - exists fs, d, t. by rewrite (features_cached d t fs Hc).
  - unfold features, bind, self. cbn [fst snd]. rewrite Hc.
    unfold try_except, bind, _simple_call, bind, self, on_host,
      _subprocess_check_output, try_except, check_output_STDOUT, bind, spawn.
    cbn [fst snd].
    destruct (returncode (run h t (adb_cmd d ++ [lit "features"])) =? 0)%Z;
      cbn; eauto 10.
Qed.

Lemma features_inv (d d1 : AndroidDevice) (t t1 : trace) (r : outcome (list str)) :
  features h (d, t) = (r, (d1, t1)) ->
  exists fs, r = Return fs /\ _features d1 = Some fs /\ adb_cmd d1 = adb_cmd d.
Proof.
  intros Hf. destruct (features_fills_cache d t) as (fs & d' & t' & Hf' & ? & ?).
  rewrite Hf in Hf'. injection Hf' as -> -> ->. eauto.
Qed.

(** ** [shell_nocheck] in its two modes *)

Lemma shell_nocheck_structured (d d1 : AndroidDevice) (t t1 : trace)
    (fs : list str) (cmd : list str) :
  features h (d, t) = (Return fs, (d1, t1)) ->
  list_in SHELL_PROTOCOL_FEATURE fs = true ->
  shell_nocheck h cmd (d, t)
    = (Return (returncode (run h t1 (adb_cmd d ++ [lit "shell"] ++ cmd)),
               stdout (run h t1 (adb_cmd d ++ [lit "shell"] ++ cmd)),
               stderr (run h t1 (adb_cmd d ++ [lit "shell"] ++ cmd))),
       (d1, t1 ++ [adb_cmd d ++ [lit "shell"] ++ cmd])).
Proof.
  intros Hf Hin.
  destruct (features_inv _ _ _ _ _ Hf) as (fs' & [= <-] & Hc & _).
  unfold shell_nocheck, _make_shell_cmd, bind, self. simpl.
  rewrite Hf, Hin. simpl. unfold on_host, spawn. simpl.
  rewrite (features_cached d1 _ fs Hc), Hin. done.
Qed.

Lemma shell_nocheck_legacy (d d1 : AndroidDevice) (t t1 : trace)
    (fs : list str) (cmd : list str) :
  features h (d, t) = (Return fs, (d1, t1)) ->
  list_in SHELL_PROTOCOL_FEATURE fs = false ->
  let argv := adb_cmd d ++ [lit "shell"] ++ cmd
                ++ [lit "; " ++ _RETURN_CODE_PROBE_STRING] in
  let p := run h t1 argv in
  shell_nocheck h cmd (d, t)
    = (match _parse_shell_output (stdout p) with
       | Return (exit_code, out) => Return (exit_code, out, stderr p)
       | Raise e => Raise e
       end, (d1, t1 ++ [argv])).
Proof.
  intros Hf Hin argv p.
  destruct (features_inv _ _ _ _ _ Hf) as (fs' & [= <-] & Hc & _).
  unfold shell_nocheck, _make_shell_cmd, bind, self. simpl.
  rewrite Hf, Hin. simpl. unfold on_host, spawn. simpl.
  rewrite <- !app_assoc. simpl.
  rewrite (features_cached d1 _ fs Hc), Hin. unfold of_result.
  subst p argv. simpl.
  match goal with
  | |- context [_parse_shell_output ?o] =>
      by destruct (_parse_shell_output o) as [[? ?]|]
  end.
Qed.

Lemma shell_of_shell_nocheck (cmd : list str) (s s' : AndroidDevice * trace)
    (exit_code : Z) (out err : str) :
  shell_nocheck h cmd s = (Return (exit_code, out, err), s') ->
  shell h cmd s =
    (if (exit_code =? 0)%Z then Return (out, err)
     else Raise (ShellError cmd out err exit_code), s').
Proof.
  intros Hs. unfold shell, bind. rewrite Hs.
  by destruct (exit_code =? 0)%Z.
Qed.

Lemma shell_of_shell_nocheck_raise (cmd : list str) (s s' : AndroidDevice * trace)
    (e : exn) :
  shell_nocheck h cmd s = (Raise e, s') -> shell h cmd s = (Raise e, s').
Proof. intros Hs. unfold shell, bind. by rewrite Hs. Qed.

End Methods.

(** ** Device resolution *)

Section Resolution.

Variable h : host.

Lemma get_device_by_serial_loop_present (devices : list str) (serial : str)
    (product : option str) (adb_path : str) :
  serial ∈ devices ->
  _get_device_by_serial_loop devices serial product adb_path
    = Return (AndroidDevice_init (Some serial) product adb_path).
Proof.
  induction devices as [|d devices IH]; intros Hin; simpl.
  - by apply elem_of_nil in Hin.
  - case_bool_decide as Hd; [done|].
    apply elem_of_cons in Hin as [->|Hin]; [done|]. by apply IH.
Qed.

Lemma get_device_by_serial_loop_absent (devices : list str) (serial : str)
    (product : option str) (adb_path : str) :
  serial ∉ devices ->
  _get_device_by_serial_loop devices serial product adb_path
    = Raise (DeviceNotFoundError serial).
Proof.
  induction devices as [|d devices IH]; intros Hin; simpl; [done|].
  apply not_elem_of_cons in Hin as [Hne Hin].
  case_bool_decide as Hd; [by subst|]. by apply IH.
Qed.

Lemma get_device_by_serial_run (devices : list str) (serial : str)
    (product : option str) (adb_path : str) (t t' : trace) :
  get_devices h adb_path t = (Return devices, t') ->
  _get_device_by_serial h serial product adb_path t
    = (_get_device_by_serial_loop devices serial product adb_path, t').
Proof. intros Hd. unfold _get_device_by_serial, bind. by rewrite Hd. Qed.

Lemma get_unique_device_run (devices : list str)
    (product : option str) (adb_path : str) (t t' : trace) :
  get_devices h adb_path t = (Return devices, t') ->
  _get_unique_device h product adb_path t
    = (match devices with
       | [d] => Return (AndroidDevice_init (Some d) product adb_path)
       | _ => Raise NoUniqueDeviceError
       end, t').
Proof.
  intros Hd. unfold _get_unique_device, bind. rewrite Hd.
  by destruct devices as [|? [|? ?]].
Qed.

(** What [get_devices] does once both of its processes have exited with
    status zero. *)
Lemma get_devices_run (adb_path : str) (t : trace) :
  let t1 := t ++ [[adb_path; lit "start-server"]] in
  let p := run h t1 [adb_path; lit "devices"] in
  returncode (run h t [adb_path; lit "start-server"]) = 0%Z ->
  returncode p = 0%Z ->
  get_devices h adb_path t
    = (get_devices_loop (slice_from 1 (splitlines (stdout p))) [],
       t1 ++ [[adb_path; lit "devices"]]).
Proof.
  intros t1 p H0 H1.
  unfold get_devices, bind, check_call, check_output, bind, spawn.
  rewrite H0. cbn [Z.eqb ret]. fold t1. fold p. rewrite H1. done.
Qed.

End Resolution.


(** ** The pattern of [get_props] *)

Section Pattern.

Implicit Types (c : ascii) (s p a b : str) (f : ascii -> bool).

Lemma startswith_split p s : startswith p s = true <-> exists r, s = p ++ r.
Proof.
  revert s. induction p as [|x p IH]; intros s; simpl.
  - split; eauto.
  - destruct s as [|y s].
    + split; [done|]. by intros [r ?].
    + destruct (Ascii.eqb_spec x y) as [->|Hne].
      * rewrite IH. split; intros [r Hr]; exists r; [by rewrite Hr|].
        by injection Hr.
      * split; [done|]. intros [r Hr]. by injection Hr.
Qed.

Lemma take_until_app_stop f a c b :
  (forall x, x ∈ a -> f x = false) -> f c = true ->
  take_until f (a ++ c :: b) = a.
Proof.
  intros Ha Hc. induction a as [|x a IH]; simpl; [by rewrite Hc|].
  rewrite (Ha x) by apply list_elem_of_here.
  f_equal. apply IH. intros y Hy. apply Ha. by apply list_elem_of_further.
Qed.

Lemma take_until_app_pass f a b :
  (forall x, x ∈ a -> f x = false) ->
  take_until f (a ++ b) = a ++ take_until f b.
Proof.
  intros Ha. induction a as [|x a IH]; simpl; [done|].
  rewrite (Ha x) by apply list_elem_of_here.
  f_equal. apply IH. intros y Hy. apply Ha. by apply list_elem_of_further.
Qed.

Lemma take_until_free f s x : x ∈ take_until f s -> f x = false.
Proof.
  induction s as [|y s IH]; simpl; [by intros ?%elem_of_nil|].
  destruct (f y) eqn:Hy; [by intros ?%elem_of_nil|].
  intros [->|?]%elem_of_cons; auto.
Qed.

(** What [take_until] leaves behind is empty or starts where it stopped. *)
Lemma take_until_split f s :
  exists r, s = take_until f s ++ r /\
            take_until f r = [] .
Proof.
  induction s as [|y s (r & Hs & Hr)]; simpl.
  - by exists [].
  - destruct (f y) eqn:Hy.
    + exists (y :: s). simpl. by rewrite Hy.
    + exists r. split; [simpl; congruence|done].
Qed.

Lemma rfind_char_Some c s i :
  rfind [c] s = Some i ->
  exists a b, s = a ++ c :: b /\ length a = i /\ c ∉ b.
Proof.
  intros Hr. destruct (decide (c ∈ s)) as [Hin|Hnot].
  - apply list_elem_of_split_r in Hin as (a & b & -> & Hb).
    rewrite rfind_char_last in Hr by done. injection Hr as <-. eauto.
  - by rewrite rfind_char_None in Hr.
Qed.

Lemma eqb_false_of_not_elem c a : c ∉ a -> forall x, x ∈ a -> Ascii.eqb c x = false.
Proof. intros Hc x Hx. apply Ascii.eqb_neq. by intros ->. Qed.

Lemma getprop_pattern_match_begins (key value rest : str) :
  key <> [] -> "]"%char ∉ key -> LF ∉ value ->
  "]"%char ∉ take_until (Ascii.eqb LF) rest ->
  getprop_pattern_match (getprop_line key value ++ rest) = Some (key, value).
Proof.
  intros Hk Hkb Hv Hr.
  set (after_key := lit "]: [" ++ value ++ "]"%char :: rest).
  assert (Hline : getprop_line key value ++ rest
                  = "["%char :: key ++ "]"%char :: lit ": [" ++ value ++ "]"%char :: rest).
  { unfold getprop_line. by rewrite <- !app_assoc. }
  rewrite Hline. unfold getprop_pattern_match. cbn [Ascii.eqb Bool.eqb].
  rewrite (take_until_app_stop (Ascii.eqb "]")); cycle 1.
  { by apply eqb_false_of_not_elem. }
  { apply Ascii.eqb_refl. }
  rewrite drop_app_length.
  destruct key as [|k0 key]; [done|]. cbn [is_empty].
  assert (Hsw : startswith (lit "]: [") after_key = true)
    by (apply startswith_split; eauto).
  change ("]"%char :: lit ": [" ++ value ++ "]"%char :: rest) with after_key.
  rewrite Hsw.
  change (drop 4 after_key) with (value ++ "]"%char :: rest).
  replace (value ++ "]"%char :: rest) with ((value ++ ["]"%char]) ++ rest)
    by by rewrite <- app_assoc.
  rewrite (take_until_app_pass (Ascii.eqb LF)).
  2:{ intros x [Hx| ->%list_elem_of_singleton]%elem_of_app.
      - by apply (eqb_false_of_not_elem LF value).
      - done. }
  rewrite <- app_assoc. cbn [app].
  change (lit "]") with ["]"%char].
  rewrite rfind_char_last by done.
  by rewrite take_app_length.
Qed.

Lemma getprop_pattern_match_inv (line key value : str) :
  getprop_pattern_match line = Some (key, value) ->
  exists rest,
    line = getprop_line key value ++ rest /\
    key ≠ [] /\ ("]"%char ∉ key) /\ (LF ∉ value) /\
    ("]"%char ∉ take_until (Ascii.eqb LF) rest).
Proof.
  unfold getprop_pattern_match.
  destruct line as [|c line]; [done|].
  destruct (Ascii.eqb_spec c "[") as [->|]; [|done].
  destruct (take_until_split (Ascii.eqb "]") line) as (r1 & Hline & Hr1).
  assert (Hkfree : forall x, x ∈ take_until (Ascii.eqb "]") line ->
                             Ascii.eqb "]" x = false)
    by (intros x; apply take_until_free).
  remember (take_until (Ascii.eqb "]") line) as k eqn:Hk.
  destruct (is_empty k) eqn:Hek; [done|].
  assert (drop (length k) line = r1) as ->
    by (rewrite Hline; apply drop_app_length).
  destruct (startswith (lit "]: [") r1) eqn:Hsw; [|done].
  apply startswith_split in Hsw as [r2 ->].
  change (drop 4 (lit "]: [" ++ r2)) with r2.
  destruct (take_until_split (Ascii.eqb LF) r2) as (r3 & Hr2 & Hr3).
  assert (Hfree : forall x, x ∈ take_until (Ascii.eqb LF) r2 ->
                            Ascii.eqb LF x = false)
    by (intros x; apply take_until_free).
  remember (take_until (Ascii.eqb LF) r2) as reach eqn:Hreach'.
  destruct (rfind (lit "]") reach) as [i|] eqn:Hrf; [|done].
  change (lit "]") with ["]"%char] in Hrf.
  apply rfind_char_Some in Hrf as (a & b & Hreach & Hlen & Hb).
  intros [= <- <-]. rewrite Hreach, <- Hlen, take_app_length.
  exists (b ++ r3). repeat split.
  - unfold getprop_line. rewrite Hline, Hr2, Hreach.
    by rewrite <- !app_assoc.
  - by destruct k.
  - intros Hin. apply Hkfree in Hin. by rewrite Ascii.eqb_refl in Hin.
  - intros Hin.
    assert (Hmem : LF ∈ reach) by (rewrite Hreach; apply elem_of_app; by left).
    apply Hfree in Hmem. by rewrite Ascii.eqb_refl in Hmem.
  - rewrite take_until_app_pass.
    + rewrite Hr3, app_nil_r. done.
    + intros x Hx. apply Hfree. rewrite Hreach.
      apply elem_of_app. right. by apply list_elem_of_further.
Qed.

End Pattern.

(** ** The loop of [get_props] *)

Section GetProps.

Implicit Types (output : list str) (props : gmap str str)
  (kvs : list (str * str)).

Lemma get_props_loop_invalid output props (line : str) :
  line ∈ output -> getprop_pattern_match line = None ->
  exists msg, get_props_loop output props = Raise (RuntimeError msg).
Proof.
  revert props. induction output as [|l output IH]; intros props Hin Hbad.
  - by apply elem_of_nil in Hin.
  - simpl. destruct (getprop_pattern_match l) as [[key value]|] eqn:Hl; [|eauto].
    case_bool_decide; [eauto|].
    apply elem_of_cons in Hin as [->|Hin]; [congruence|]. by apply IH.
Qed.

Lemma get_props_loop_key_taken output props (line key value : str) :
  line ∈ output -> getprop_pattern_match line = Some (key, value) ->
  is_Some (props !! key) ->
  exists msg, get_props_loop output props = Raise (RuntimeError msg).
Proof.
  revert props. induction output as [|l output IH]; intros props Hin Hm Hk.
  - by apply elem_of_nil in Hin.
  - simpl. destruct (getprop_pattern_match l) as [[key' value']|] eqn:Hl; [|eauto].
    case_bool_decide as Hdup; [eauto|].
    apply elem_of_cons in Hin as [->|Hin].
    + rewrite Hm in Hl. injection Hl as <- <-. done.
    + apply IH; [done..|]. apply lookup_insert_is_Some.
      destruct (decide (key' = key)); [by left|by right].
Qed.

Lemma get_props_loop_duplicate (l1 l2 l3 : list str) props
    (a b key v1 v2 : str) :
  getprop_pattern_match a = Some (key, v1) ->
  getprop_pattern_match b = Some (key, v2) ->
  exists msg,
    get_props_loop (l1 ++ a :: l2 ++ b :: l3) props = Raise (RuntimeError msg).
Proof.
  intros Ha Hb. revert props. induction l1 as [|l l1 IH]; intros props.
  - simpl. rewrite Ha. case_bool_decide; [eauto|].
    apply (get_props_loop_key_taken _ _ b key v2); [|done|].
    + apply elem_of_app. right. apply list_elem_of_here.
    + rewrite lookup_insert_eq. eauto.
  - simpl. destruct (getprop_pattern_match l) as [[key' value']|]; [|eauto].
    case_bool_decide; eauto.
Qed.

Lemma get_props_loop_collects output kvs props :
  Forall2 (fun line kv => getprop_pattern_match line = Some kv) output kvs ->
  NoDup kvs.*1 ->
  (forall key, key ∈ kvs.*1 -> props !! key = None) ->
  get_props_loop output props = Return (list_to_map kvs ∪ props).
Proof.
  intros Hall. revert props.
  induction Hall as [|line [key value] output kvs Hm _ IH]; intros props Hnd Hfresh.
  - simpl. by rewrite (left_id_L ∅ (∪)).
  - simpl in *. rewrite Hm.
    apply NoDup_cons in Hnd as [Hkey Hnd].
    rewrite bool_decide_eq_false_2.
    2:{ rewrite (Hfresh key) by apply list_elem_of_here. by intros [? ?]. }
    rewrite IH; [|done|].
    + f_equal. rewrite <- insert_union_l. symmetry. apply insert_union_r.
      by apply not_elem_of_list_to_map_1.
    + intros k Hk. rewrite lookup_insert_ne; [|by intros ->].
      apply Hfresh. by apply list_elem_of_further.
Qed.

End GetProps.

Section PropertyMethods.

Variable h : host.

Lemma get_props_run (s s' : AndroidDevice * trace) (output err : str) :
  shell h [lit "getprop"] s = (Return (output, err), s') ->
  get_props h s = (get_props_loop (splitlines output) ∅, s').
Proof. intros Hs. unfold get_props, bind. by rewrite Hs. Qed.

Lemma get_prop_run (prop_name : str) (s s' : AndroidDevice * trace)
    (output err : str) :
  shell h [lit "getprop"; prop_name] s = (Return (output, err), s') ->
  get_prop h prop_name s =
    (match splitlines output with
     | [value] => if is_empty (strip value) then Return None
                  else Return (Some value)
     | lines =>
         Raise (RuntimeError
                  (lit "Too many lines in getprop output:" ++ [LF]
                     ++ join [LF] lines))
     end, s').
Proof.
  intros Hs. unfold get_prop, bind. rewrite Hs.
  destruct (splitlines output) as [|value [|? ?]]; try done.
  by destruct (is_empty (strip value)).
Qed.

End PropertyMethods.

(** * Main results *)

(** ** Legacy-mode output parsing *)

(** C1.  A legacy-mode output made of a payload, the delimiter and the
    decimal text of an exit code between 0 and 255 parses to that exit
    code and to exactly the payload, whatever the length of the payload,
    so both below and above the length of the scan window.  The proof does
    not need the payload to be free of the delimiter character. *)
Theorem parse_shell_output_recovers_payload (payload : str) (n : Z) :
  (0 <= n <= 255)%Z ->
  delimiter ∉ payload ->
  _parse_shell_output (payload ++ _RETURN_CODE_DELIMITER ++ decimal n)
    = Return (n, payload).
Proof.
  intros Hn _.
  destruct (exit_code_text n Hn) as (Hx & Hlen & Hint).
  change (_RETURN_CODE_DELIMITER ++ decimal n) with (delimiter :: decimal n).
  by rewrite parse_delimited, Hint.
Qed.

Lemma parse_shell_output_recovers_payload_witness :
  _parse_shell_output (lit "ok" ++ _RETURN_CODE_DELIMITER ++ decimal 7)
    = Return (7%Z, lit "ok") /\
  _parse_shell_output
      (lit "a payload longer than the window" ++ _RETURN_CODE_DELIMITER
         ++ decimal 255)
    = Return (255%Z, lit "a payload longer than the window").
Proof.
  split; apply parse_shell_output_recovers_payload; first [lia | compute_done].
Defined.

(** C3.  When the delimiter character does not occur in the trailing scan
    window, [_parse_shell_output] raises the "could not find exit status"
    error, wherever else the delimiter may occur; [shell_nocheck] in
    legacy mode, and [shell] after it, end with that same error after
    having started the shell command exactly once. *)
Theorem delimiter_outside_window_is_fatal :
  (forall out : str,
     delimiter ∉ trailing_window out ->
     _parse_shell_output out
       = Raise (RuntimeError
                  (lit "Could not find exit status in shell output."))) /\
  (forall (h : host) (d d1 : AndroidDevice) (t t1 : trace)
          (fs cmd : list str),
     features h (d, t) = (Return fs, (d1, t1)) ->
     list_in SHELL_PROTOCOL_FEATURE fs = false ->
     let argv := adb_cmd d ++ [lit "shell"] ++ cmd
                   ++ [lit "; " ++ _RETURN_CODE_PROBE_STRING] in
     delimiter ∉ trailing_window (stdout (run h t1 argv)) ->
     let fatal :=
       RuntimeError (lit "Could not find exit status in shell output.") in
     shell_nocheck h cmd (d, t) = (Raise fatal, (d1, t1 ++ [argv])) /\
     shell h cmd (d, t) = (Raise fatal, (d1, t1 ++ [argv]))).
Proof.
  split; [exact parse_not_found|].
  intros h d d1 t t1 fs cmd Hf Hlegacy argv Hx fatal.
  assert (Hnc : shell_nocheck h cmd (d, t) = (Raise fatal, (d1, t1 ++ [argv]))).
  { rewrite (shell_nocheck_legacy h d d1 t t1 fs cmd Hf Hlegacy).
    fold argv. by rewrite (parse_not_found _ Hx). }
  split; [done|]. by apply shell_of_shell_nocheck_raise.
Qed.

Lemma delimiter_outside_window_is_fatal_witness :
  _parse_shell_output (lit "x0 and more")
    = Raise (RuntimeError (lit "Could not find exit status in shell output.")) /\
  fst (shell_nocheck (sample_host [] (lit "x0 and more") None) [lit "ls"]
         (sample_device, []))
    = Raise (RuntimeError (lit "Could not find exit status in shell output.")).
Proof.
  destruct delimiter_outside_window_is_fatal as [Hparse Hshell]. split.
  - apply Hparse. compute_done.
  - pose (h := sample_host [] (lit "x0 and more") None).
    destruct (Hshell h sample_device
                (set_features [] sample_device) []
                [adb_cmd sample_device ++ [lit "features"]] [] [lit "ls"])
      as [Hnc _].
    + reflexivity.
    + reflexivity.
    + compute_done.
    + exact (f_equal fst Hnc).
Defined.

(** C9.  When the delimiter is found in the trailing window and the text
    after its last occurrence is not an integer literal, the conversion
    fails and [_parse_shell_output] raises [ValueError], not the
    [RuntimeError] it documents.  Such outputs exist: one ending in the
    delimiter, and one with other characters after it. *)
Theorem parse_shell_output_bad_code_text :
  (forall out w tail : str,
     trailing_window out = w ++ delimiter :: tail ->
     delimiter ∉ tail ->
     int tail = None ->
     _parse_shell_output out = Raise ValueError) /\
  _parse_shell_output (lit "abcx") = Raise ValueError /\
  _parse_shell_output (lit "donexfoo") = Raise ValueError.
Proof.
  split; [|split; reflexivity].
  intros out w tail Hw Hx Hint.
  destruct (parse_found_window out w tail Hw Hx) as (pre & _ & ->).
  by rewrite Hint.
Qed.

Lemma parse_shell_output_bad_code_text_witness :
  _parse_shell_output (lit "some output x1 2") = Raise ValueError.
Proof.
  apply (proj1 parse_shell_output_bad_code_text _ (lit "t ") (lit "1 2"));
    [reflexivity | compute_done | reflexivity].
Defined.

(** C10.  When [_parse_shell_output] returns, the cleaned output is a
    prefix of the input: the input is the cleaned output, then the
    delimiter, then the exit-code text (with whatever line terminator it
    ends in), and nothing else; the exit code is the value of that text. *)
Theorem parse_shell_output_strips_suffix (out cleaned : str) (n : Z) :
  _parse_shell_output out = Return (n, cleaned) ->
  exists code_text : str,
    out = cleaned ++ _RETURN_CODE_DELIMITER ++ code_text /\
    int code_text = Some n /\
    (delimiter ∉ code_text) /\
    cleaned `prefix_of` out /\
    length cleaned
      = length out - (length _RETURN_CODE_DELIMITER + length code_text) /\
    cleaned = take (length cleaned) out.
Proof.
  intros Hret.
  destruct (parse_return_inv out cleaned n Hret) as (tail & -> & Hx & _ & Hint).
  exists tail. change (_RETURN_CODE_DELIMITER ++ tail) with (delimiter :: tail).
  repeat split; try done.
  - by eexists.
  - rewrite length_app. simpl. lia.
  - by rewrite take_app_length.
Qed.

Lemma parse_shell_output_strips_suffix_witness :
  exists code_text : str,
    lit "two words x 12 " = lit "two words " ++ _RETURN_CODE_DELIMITER ++ code_text /\
    int code_text = Some 12%Z /\
    (delimiter ∉ code_text) /\
    lit "two words " `prefix_of` lit "two words x 12 " /\
    length (lit "two words ")
      = length (lit "two words x 12 ")
        - (length _RETURN_CODE_DELIMITER + length code_text) /\
    lit "two words " = take (length (lit "two words ")) (lit "two words x 12 ").
Proof.
  apply (parse_shell_output_strips_suffix _ _ 12%Z). reflexivity.
Defined.

(** ** Running shell commands *)

(** C2.  On a handle whose feature list holds [shell_v2], [shell_nocheck]
    starts exactly the address arguments, [shell] and the user's command,
    with nothing appended, and returns the return code, the standard
    output and the standard error of that process as they are. *)
Theorem shell_nocheck_structured_passthrough (h : host)
    (d d1 : AndroidDevice) (t t1 : trace) (fs cmd : list str) :
  features h (d, t) = (Return fs, (d1, t1)) ->
  list_in SHELL_PROTOCOL_FEATURE fs = true ->
  let argv := adb_cmd d ++ [lit "shell"] ++ cmd in
  let p := run h t1 argv in
  shell_nocheck h cmd (d, t)
    = (Return (returncode p, stdout p, stderr p), (d1, t1 ++ [argv])).
Proof.
  intros Hf Hin argv p.
  destruct (features_inv h _ _ _ _ _ Hf) as (fs' & [= <-] & Hc & _).
  unfold shell_nocheck, _make_shell_cmd, bind, self. simpl.
  rewrite Hf, Hin. simpl. unfold on_host, spawn. simpl.
  rewrite (features_cached h d1 _ fs Hc), Hin. done.
Qed.


Lemma shell_nocheck_structured_passthrough_witness :
  shell_nocheck (sample_host (lit "shell_v2") (lit "x1 out x9") None)
      [lit "ls"; lit "-l"] (sample_device, [])
    = (Return (0%Z, lit "x1 out x9", []),
       (set_features [lit "shell_v2"] sample_device,
        [[lit "adb"; lit "-s"; lit "abc123"; lit "features"];
         [lit "adb"; lit "-s"; lit "abc123"; lit "shell"; lit "ls"; lit "-l"]])).
Proof.
  apply (shell_nocheck_structured_passthrough
           (sample_host (lit "shell_v2") (lit "x1 out x9") None)
           sample_device (set_features [lit "shell_v2"] sample_device)
           [] [[lit "adb"; lit "-s"; lit "abc123"; lit "features"]]
           [lit "shell_v2"] [lit "ls"; lit "-l"]); reflexivity.
Defined.

(** C4.  Whatever [shell_nocheck] returns, [shell] raises [ShellError]
    with the command, both streams and the exit code exactly when the
    exit code is not zero, and returns the two streams otherwise. *)
Theorem shell_raises_iff_nonzero (h : host) (cmd : list str)
    (s s' : AndroidDevice * trace) (exit_code : Z) (out err : str) :
  shell_nocheck h cmd s = (Return (exit_code, out, err), s') ->
  (shell h cmd s = (Raise (ShellError cmd out err exit_code), s')
     <-> exit_code <> 0%Z) /\
  (exit_code = 0%Z -> shell h cmd s = (Return (out, err), s')).
Proof.
  intros Hs. rewrite (shell_of_shell_nocheck h cmd s s' exit_code out err Hs).
  destruct (Z.eqb_spec exit_code 0) as [->|Hne]; split; done.
Qed.

Lemma shell_raises_iff_nonzero_witness :
  fst (shell (sample_host [] (lit "no such file" ++ [LF] ++ lit "x2" ++ [CR; LF]) None)
         [lit "ls"; lit "nowhere"] (sample_device, []))
    = Raise (ShellError [lit "ls"; lit "nowhere"]
               (lit "no such file" ++ [LF]) [] 2%Z).
Proof.
  pose (h := sample_host [] (lit "no such file" ++ [LF] ++ lit "x2" ++ [CR; LF]) None).
  destruct (shell_raises_iff_nonzero h [lit "ls"; lit "nowhere"]
              (sample_device, [])
              (snd (shell_nocheck h [lit "ls"; lit "nowhere"] (sample_device, [])))
              2%Z (lit "no such file" ++ [LF]) [] eq_refl) as [[_ Hraise] _].
  exact (f_equal fst (Hraise ltac:(lia))).
Defined.

(** ** Finding a device *)

(** C6.  [get_devices] skips the header line and the blank lines and
    returns the serials in the order listed; on the listing of the
    example it returns the one serial.  A line is dropped when the text
    [offline] occurs anywhere in it: this drops the entries whose state is
    [offline], and it also drops an entry whose state is [device] and
    whose serial holds that text. *)
Theorem get_devices_offline_filter (h : host) (adb_path : str) (t : trace) :
  let t1 := t ++ [[adb_path; lit "start-server"]] in
  let p := run h t1 [adb_path; lit "devices"] in
  let t2 := t1 ++ [[adb_path; lit "devices"]] in
  returncode (run h t [adb_path; lit "start-server"]) = 0%Z ->
  returncode p = 0%Z ->
  (stdout p = lit "List of attached devices" ++ [LF; LF]
                ++ lit "abc123" ++ [TAB] ++ lit "device" ++ [LF] ->
   get_devices h adb_path t = (Return [lit "abc123"], t2)) /\
  (stdout p = lit "List of devices attached" ++ [LF]
                ++ lit "abc123" ++ [TAB] ++ lit "offline" ++ [LF]
                ++ lit "def456" ++ [TAB] ++ lit "unauthorized" ++ [LF] ->
   get_devices h adb_path t = (Return [lit "def456"], t2)) /\
  (stdout p = lit "List of devices attached" ++ [LF]
                ++ lit "offline-lab:5555" ++ [TAB] ++ lit "device" ++ [LF] ->
   get_devices h adb_path t = (Return [], t2)).
Proof.
  intros t1 p t2 H0 H1.
  rewrite (get_devices_run h adb_path t H0 H1). fold t1 p t2.
  repeat split; intros ->; reflexivity.
Qed.

Lemma get_devices_offline_filter_witness :
  fst (get_devices
         (sample_host []
            (lit "List of devices attached" ++ [LF]
               ++ lit "offline-lab:5555" ++ [TAB] ++ lit "device" ++ [LF])
            None)
         (lit "adb") [])
    = Return [].
Proof.
  pose (h := sample_host []
               (lit "List of devices attached" ++ [LF]
                  ++ lit "offline-lab:5555" ++ [TAB] ++ lit "device" ++ [LF])
               None).
  destruct (get_devices_offline_filter h (lit "adb") [] eq_refl eq_refl)
    as (_ & _ & Hdrop).
  exact (f_equal fst (Hdrop eq_refl)).
Defined.

(** C5.  Device resolution follows the order serial argument,
    environment override, single connected device.  A serial argument is
    looked up in the device list; without one, the serial of the
    environment is looked up in the same way; without either, the single
    connected device is taken.  A serial that is looked up and missing
    raises [DeviceNotFoundError] with that serial; without serial and
    override, a list of any length but one (none or two devices, say)
    raises [NoUniqueDeviceError], and a list of one device gives a handle
    for that device. *)
Theorem get_device_resolution_order (h : host) (product : option str)
    (adb_path : str) (t t' : trace) (devices : list str) :
  get_devices h adb_path t = (Return devices, t') ->
  (forall serial : str,
     serial ∈ devices ->
     get_device h (Some serial) product adb_path t
       = (Return (AndroidDevice_init (Some serial) product adb_path), t')) /\
  (forall serial : str,
     serial ∉ devices ->
     get_device h (Some serial) product adb_path t
       = (Raise (DeviceNotFoundError serial), t')) /\
  (forall android_serial : str,
     environ h (lit "ANDROID_SERIAL") = Some android_serial ->
     get_device h None product adb_path t
       = get_device h (Some android_serial) product adb_path t) /\
  (environ h (lit "ANDROID_SERIAL") = None ->
   length devices <> 1 ->
   get_device h None product adb_path t = (Raise NoUniqueDeviceError, t')) /\
  (forall only : str,
     environ h (lit "ANDROID_SERIAL") = None ->
     devices = [only] ->
     get_device h None product adb_path t
       = (Return (AndroidDevice_init (Some only) product adb_path), t')).
Proof.
  intros Hd. repeat split.
  - intros serial Hin. unfold get_device.
    rewrite (get_device_by_serial_run h devices serial product adb_path t t' Hd).
    by rewrite get_device_by_serial_loop_present.
  - intros serial Hin. unfold get_device.
    rewrite (get_device_by_serial_run h devices serial product adb_path t t' Hd).
    by rewrite get_device_by_serial_loop_absent.
  - intros android_serial Henv. unfold get_device. by rewrite Henv.
  - intros Henv Hlen. unfold get_device. rewrite Henv.
    rewrite (get_unique_device_run h devices product adb_path t t' Hd).
    by destruct devices as [|? [|? ?]].
  - intros only Henv ->. unfold get_device. rewrite Henv.
    by rewrite (get_unique_device_run h [only] product adb_path t t' Hd).
Qed.

Lemma get_device_resolution_order_witness :
  fst (get_device
         (sample_host []
            (lit "List of devices attached" ++ [LF]
               ++ lit "only" ++ [TAB] ++ lit "device" ++ [LF])
            None)
         None None (lit "adb") [])
    = Return (AndroidDevice_init (Some (lit "only")) None (lit "adb")) /\
  fst (get_device
         (sample_host []
            (lit "List of devices attached" ++ [LF]
               ++ lit "only" ++ [TAB] ++ lit "device" ++ [LF])
            None)
         (Some (lit "other")) None (lit "adb") [])
    = Raise (DeviceNotFoundError (lit "other")).
Proof.
  pose (h := sample_host []
               (lit "List of devices attached" ++ [LF]
                  ++ lit "only" ++ [TAB] ++ lit "device" ++ [LF])
               None).
  destruct (get_device_resolution_order h None (lit "adb") []
              (snd (get_devices h (lit "adb") [])) [lit "only"] eq_refl)
    as (_ & Habsent & _ & _ & Hone).
  split.
  - exact (f_equal fst (Hone (lit "only") eq_refl eq_refl)).
  - refine (f_equal fst (Habsent (lit "other") _)). compute_done.
Defined.

(** ** Properties of the device *)

(** C7, as stated, fails: a line that goes on after the closing bracket
    of the value is not of the form [[key]: [value]], and [get_props]
    takes it all the same. *)
Lemma get_props_trailing_text_counterexample :
  (forall key value : str, lit "[ro.a]: [1]junk" <> getprop_line key value) /\
  fst (get_props (sample_host (lit "shell_v2") (lit "[ro.a]: [1]junk") None)
         (sample_device, []))
    = Return {[ lit "ro.a" := lit "1" ]}.
Proof.
  split; [|by vm_compute].
  intros key value Heq. apply (f_equal last) in Heq.
  unfold getprop_line in Heq. rewrite !app_assoc in Heq.
  change (lit "]") with ["]"%char] in Heq. rewrite last_snoc in Heq.
  discriminate Heq.
Qed.

(** C7, amended.  [get_props] maps each output line that begins with
    [[key]: [value]] to an entry from the key to the value, the value
    running to the last closing bracket of the line and the rest of the
    line being ignored: with such a beginning on every line and no key
    twice, it returns the mapping of all the entries, on the two lines of
    the example the two entries.  It raises on a line that does not begin
    in that way, and on a key that comes twice. *)
Theorem get_props_line_prefixes (h : host) (s s' : AndroidDevice * trace)
    (output err : str) :
  shell h [lit "getprop"] s = (Return (output, err), s') ->
  (output = lit "[ro.a]: [1]" ++ [LF] ++ lit "[ro.b]: [2]" ->
   get_props h s
     = (Return {[ lit "ro.a" := lit "1"; lit "ro.b" := lit "2" ]}, s')) /\
  (forall kvs : list (str * str),
     Forall2 (fun line kv => begins_with_getprop_form line kv.1 kv.2)
       (splitlines output) kvs ->
     NoDup kvs.*1 ->
     get_props h s = (Return (list_to_map kvs), s')) /\
  (forall line : str,
     line ∈ splitlines output ->
     (forall key value, ~ begins_with_getprop_form line key value) ->
     exists msg, get_props h s = (Raise (RuntimeError msg), s')) /\
  (forall (l1 l2 l3 : list str) (a b key v1 v2 : str),
     splitlines output = l1 ++ a :: l2 ++ b :: l3 ->
     begins_with_getprop_form a key v1 ->
     begins_with_getprop_form b key v2 ->
     exists msg, get_props h s = (Raise (RuntimeError msg), s')).
Proof.
  intros Hs. rewrite (get_props_run h s s' output err Hs).
  assert (Hform : forall line key value,
            begins_with_getprop_form line key value ->
            getprop_pattern_match line = Some (key, value)).
  { intros line key value (rest & -> & ? & ? & ? & ?).
    by apply getprop_pattern_match_begins. }
  split; [|split; [|split]].
  - intros ->. by vm_compute.
  - intros kvs Hall Hnd. f_equal.
    rewrite (get_props_loop_collects (splitlines output) kvs ∅).
    + by rewrite (right_id_L ∅ (∪)).
    + eapply Forall2_impl; [exact Hall|].
      intros line [key value] Hb. by apply Hform.
    + done.
    + intros key _. apply lookup_empty.
  - intros line Hin Hbad.
    destruct (get_props_loop_invalid (splitlines output) ∅ line Hin) as [msg ->].
    + destruct (getprop_pattern_match line) as [[key value]|] eqn:Hm; [|done].
      destruct (Hbad key value). by apply getprop_pattern_match_inv.
    + by exists msg.
  - intros l1 l2 l3 a b key v1 v2 -> Ha%Hform Hb%Hform.
    destruct (get_props_loop_duplicate l1 l2 l3 ∅ a b key v1 v2 Ha Hb)
      as [msg ->].
    by exists msg.
Qed.

Lemma get_props_line_prefixes_witness :
  fst (get_props
         (sample_host (lit "shell_v2")
            (lit "[ro.a]: [1] # one" ++ [LF] ++ lit "[ro.b]: [[2]]") None)
         (sample_device, []))
    = Return (list_to_map [(lit "ro.a", lit "1"); (lit "ro.b", lit "[2]")]).
Proof.
  pose (h := sample_host (lit "shell_v2")
               (lit "[ro.a]: [1] # one" ++ [LF] ++ lit "[ro.b]: [[2]]") None).
  destruct (get_props_line_prefixes h (sample_device, [])
              (snd (shell h [lit "getprop"] (sample_device, [])))
              (lit "[ro.a]: [1] # one" ++ [LF] ++ lit "[ro.b]: [[2]]") []
              eq_refl) as (_ & Hall & _ & _).
  refine (f_equal fst (Hall [(lit "ro.a", lit "1"); (lit "ro.b", lit "[2]")] _ _)).
  - repeat constructor.
    + exists (lit " # one"). repeat split; compute_done.
    + exists []. repeat split; compute_done.
  - compute_done.
Defined.

(** C8.  [get_prop] returns [None] for a single line that is empty or
    made of whitespace, returns a single line of any other content as it
    is, and raises when the output has more than one line.  It raises as
    well, with the same "Too many lines" message, when the output is the
    empty string and so has no line at all. *)
Theorem get_prop_outcomes (h : host) (prop_name : str)
    (s s' : AndroidDevice * trace) (output err : str) :
  shell h [lit "getprop"; prop_name] s = (Return (output, err), s') ->
  (output = [] ->
   get_prop h prop_name s
     = (Raise (RuntimeError (lit "Too many lines in getprop output:" ++ [LF])),
        s')) /\
  (forall value : str,
     splitlines output = [value] -> strip value = [] ->
     get_prop h prop_name s = (Return None, s')) /\
  (forall value : str,
     splitlines output = [value] -> strip value <> [] ->
     get_prop h prop_name s = (Return (Some value), s')) /\
  (length (splitlines output) <> 1 ->
   exists msg, get_prop h prop_name s = (Raise (RuntimeError msg), s')).
Proof.
  intros Hs. rewrite (get_prop_run h prop_name s s' output err Hs).
  split; [|split; [|split]].
  - intros ->. reflexivity.
  - intros value -> Hv. by rewrite Hv.
  - intros value -> Hv. by destruct (strip value).
  - intros Hlen. destruct (splitlines output) as [|? [|? ?]]; [|done|]; eauto.
Qed.

Lemma get_prop_outcomes_witness :
  fst (get_prop (sample_host (lit "shell_v2") [] None) (lit "ro.missing")
         (sample_device, []))
    = Raise (RuntimeError (lit "Too many lines in getprop output:" ++ [LF])) /\
  fst (get_prop (sample_host (lit "shell_v2") [LF] None) (lit "ro.missing")
         (sample_device, []))
    = Return None.
Proof.
  split.
  - pose (h := sample_host (lit "shell_v2") [] None).
    destruct (get_prop_outcomes h (lit "ro.missing") (sample_device, [])
                (snd (shell h [lit "getprop"; lit "ro.missing"] (sample_device, [])))
                [] [] eq_refl) as (Hempty & _).
    exact (f_equal fst (Hempty eq_refl)).
  - pose (h := sample_host (lit "shell_v2") [LF] None).
    destruct (get_prop_outcomes h (lit "ro.missing") (sample_device, [])
                (snd (shell h [lit "getprop"; lit "ro.missing"] (sample_device, [])))
                [LF] [] eq_refl) as (_ & Hblank & _).
    exact (f_equal fst (Hblank [] eq_refl eq_refl)).
Defined.

(** * Further properties *)

(** ** More on [_parse_shell_output] *)

Lemma exit_code_lines_ok (eol : str) :
  eol ∈ [[LF]; [CR; LF]] ->
  forallb (exit_code_line_ok eol) (map Z.of_nat (seq 0 256)) = true.
Proof.
  intros Heol. repeat apply elem_of_cons in Heol as [->|Heol].
  - by vm_compute.
  - by vm_compute.
  - by apply elem_of_nil in Heol.
Qed.

(** X1.  The probe prints the exit code on a line of its own, so the
    output ends in a line terminator: with LF or CR LF after the decimal
    text of an exit code between 0 and 255, the exit code and the exact
    payload still come back. *)
Theorem parse_shell_output_with_line_terminator (payload eol : str) (n : Z) :
  (0 <= n <= 255)%Z ->
  eol ∈ [[LF]; [CR; LF]] ->
  _parse_shell_output (payload ++ _RETURN_CODE_DELIMITER ++ decimal n ++ eol)
    = Return (n, payload).
Proof.
  intros Hn Heol.
  pose proof (exit_code_lines_ok eol Heol) as Hall.
  rewrite forallb_forall in Hall. specialize (Hall n).
  unfold exit_code_line_ok in Hall.
  rewrite !andb_true_iff, !bool_decide_eq_true, Nat.ltb_lt in Hall.
  destruct Hall as [[Hx Hlen] Hint].
  { apply in_map_iff. exists (Z.to_nat n). split; [lia|]. apply in_seq. lia. }
  change (_RETURN_CODE_DELIMITER ++ decimal n ++ eol)
    with (delimiter :: (decimal n ++ eol)).
  by rewrite parse_delimited, Hint.
Qed.

Lemma parse_shell_output_with_line_terminator_witness :
  _parse_shell_output
      (lit "total 0" ++ [CR; LF] ++ _RETURN_CODE_DELIMITER ++ decimal 127 ++ [CR; LF])
    = Return (127%Z, lit "total 0" ++ [CR; LF]).
Proof.
  apply (parse_shell_output_with_line_terminator (lit "total 0" ++ [CR; LF]));
    [lia | compute_done].
Defined.

(** X2.  The window is a hard bound: when six or more characters free of
    the delimiter follow the last delimiter, the delimiter is not seen and
    the error is the missing-exit-status one, even if those characters
    are a valid exit code with a longer line terminator. *)
Theorem parse_shell_output_long_tail (pre tail : str) :
  delimiter ∉ tail ->
  Z.to_nat _RETURN_CODE_SEARCH_LENGTH <= length tail ->
  _parse_shell_output (pre ++ _RETURN_CODE_DELIMITER ++ tail)
    = Raise (RuntimeError (lit "Could not find exit status in shell output.")).
Proof.
  intros Hx Hlen. apply parse_not_found. unfold trailing_window.
  change (_RETURN_CODE_DELIMITER ++ tail) with ([delimiter] ++ tail).
  rewrite app_assoc.
  rewrite drop_app_ge by (rewrite !length_app; simpl; lia).
  intros Hin. apply Hx. by apply (subseteq_drop _ tail) in Hin.
Qed.

Lemma parse_shell_output_long_tail_witness :
  _parse_shell_output (lit "done" ++ _RETURN_CODE_DELIMITER ++ lit "255" ++ [CR; CR; LF])
    = Raise (RuntimeError (lit "Could not find exit status in shell output.")).
Proof.
  apply (parse_shell_output_long_tail (lit "done") (lit "255" ++ [CR; CR; LF]));
    [compute_done | vm_compute; lia].
Defined.

Lemma trailing_window_app (pre out : str) :
  Z.to_nat _RETURN_CODE_SEARCH_LENGTH <= length out ->
  trailing_window (pre ++ out) = trailing_window out.
Proof.
  intros Hlen. unfold trailing_window.
  rewrite drop_app_ge by (rewrite length_app; lia).
  f_equal. rewrite length_app. lia.
Qed.

(** X3.  Only the end of the output matters: text put in front of an
    output that holds the delimiter, or that is as long as the window,
    changes neither the exit code nor the error, and comes back in front
    of the cleaned output. *)
Theorem parse_shell_output_prepend (pre out : str) :
  Z.to_nat _RETURN_CODE_SEARCH_LENGTH <= length out \/ delimiter ∈ out ->
  _parse_shell_output (pre ++ out) =
    match _parse_shell_output out with
    | Return (n, cleaned) => Return (n, pre ++ cleaned)
    | Raise e => Raise e
    end.
Proof.
  intros Hout.
  destruct (decide (delimiter ∈ trailing_window out)) as [Hin|Hnot].
  - apply list_elem_of_split_r in Hin as (w & tail & Hw & Hx).
    destruct (parse_found_window out w tail Hw Hx) as (p1 & -> & ->).
    assert (Hlen : length tail < Z.to_nat _RETURN_CODE_SEARCH_LENGTH).
    { pose proof (trailing_window_length (p1 ++ delimiter :: tail)) as Hl.
      rewrite Hw, length_app in Hl. simpl in Hl. lia. }
    rewrite app_assoc, parse_delimited by done.
    by destruct (int tail).
  - assert (Hlen : Z.to_nat _RETURN_CODE_SEARCH_LENGTH <= length out).
    { destruct Hout as [?|Hin]; [done|].
      destruct (decide (Z.to_nat _RETURN_CODE_SEARCH_LENGTH <= length out));
        [done|].
      destruct Hnot. unfold trailing_window.
      by replace (length out - Z.to_nat _RETURN_CODE_SEARCH_LENGTH) with 0
        by lia. }
    rewrite (parse_not_found out Hnot).
    apply parse_not_found. by rewrite trailing_window_app.
Qed.

Lemma parse_shell_output_prepend_witness :
  _parse_shell_output (lit "xxx first " ++ lit "second x3")
    = Return (3%Z, lit "xxx first " ++ lit "second ").
Proof.
  rewrite (parse_shell_output_prepend (lit "xxx first ") (lit "second x3"));
    [reflexivity | right; compute_done].
Defined.

(** ** The device listing *)

Section Listing.

Implicit Types (c : ascii) (s a b line serial state : str).

Lemma lstrip_keeps c s : c ∈ s -> isspace c = false -> c ∈ lstrip s.
Proof.
  induction s as [|x s IH]; intros Hin Hc; simpl; [done|].
  destruct (isspace x) eqn:Hx; [|done].
  apply elem_of_cons in Hin as [->|Hin]; [congruence|]. by apply IH.
Qed.

Lemma strip_keeps c s : c ∈ s -> isspace c = false -> c ∈ strip s.
Proof.
  intros Hin Hc. unfold strip, rstrip.
  apply lstrip_keeps; [|done].
  rewrite list_elem_of_In, <- in_rev, <- list_elem_of_In.
  apply lstrip_keeps; [|done].
  by rewrite list_elem_of_In, <- in_rev, <- list_elem_of_In.
Qed.

Lemma strip_not_blank c s :
  c ∈ s -> isspace c = false -> is_empty (strip s) = false.
Proof.
  intros Hin Hc. pose proof (strip_keeps c s Hin Hc) as Hk.
  destruct (strip s); [by apply elem_of_nil in Hk|done].
Qed.

Lemma split_ws_once_no_space s : no_space s -> split_ws_once s = [s].
Proof.
  induction s as [|x s IH]; intros Hs; simpl; [done|].
  rewrite (Hs x) by apply list_elem_of_here.
  rewrite IH; [done|]. intros c Hc. apply Hs. by apply list_elem_of_further.
Qed.

Lemma split_ws_once_at a c b :
  no_space a -> isspace c = true ->
  split_ws_once (a ++ c :: b) = [a; lstrip b].
Proof.
  intros Ha Hc. induction a as [|x a IH]; simpl; [by rewrite Hc|].
  rewrite (Ha x) by apply list_elem_of_here.
  rewrite IH; [done|]. intros y Hy. apply Ha. by apply list_elem_of_further.
Qed.

Lemma split_ws_once_inv line a b :
  split_ws_once line = [a; b] ->
  no_space a /\ exists c rest,
    line = a ++ c :: rest /\ isspace c = true /\ b = lstrip rest.
Proof.
  revert a. induction line as [|x line IH]; intros a; simpl; [done|].
  destruct (isspace x) eqn:Hx.
  - intros [= <- <-]. split; [by intros c ?%elem_of_nil|].
    by exists x, line.
  - destruct (split_ws_once line) as [|h [|t [|? ?]]] eqn:Hs; try done.
    intros [= <- <-].
    destruct (IH h eq_refl) as (Hh & c & rest & -> & Hc & Ht).
    split.
    + intros y [->|Hy]%elem_of_cons; auto.
    + by exists c, rest.
Qed.

Lemma split_ws_once_cases s :
  (no_space s /\ split_ws_once s = [s]) \/
  (exists a b, split_ws_once s = [a; b]).
Proof.
  induction s as [|x s IH]; simpl.
  - left. split; [|done]. by intros c ?%elem_of_nil.
  - destruct (isspace x) eqn:Hx; [right; eauto|].
    destruct IH as [[Hs ->]|(a & b & ->)]; [|right; eauto].
    left. split; [|done]. by intros c [->|Hc]%elem_of_cons; auto.
Qed.

(** The only exception the loop raises is the [ValueError] of a line that
    cannot be split, and such a line is then among the lines. *)
Lemma get_devices_loop_raise (lines devices : list str) (e : exn) :
  get_devices_loop lines devices = Raise e ->
  e = ValueError /\
  exists line,
    line ∈ lines /\ line <> [] /\ no_space line /\
    contains (lit "offline") line = false.
Proof.
  revert devices.
  induction lines as [|line lines IH]; intros devices; cbn [get_devices_loop];
    [done|].
  assert (Hrest : forall devices',
            get_devices_loop lines devices' = Raise e ->
            e = ValueError /\
            exists l,
              l ∈ line :: lines /\ l <> [] /\ no_space l /\
              contains (lit "offline") l = false).
  { intros devices' (-> & l & Hl & Hrest)%IH. split; [done|].
    exists l. split; [by apply list_elem_of_further|done]. }
  destruct (is_empty (strip line)) eqn:Hblank; [apply Hrest|].
  destruct (contains (lit "offline") line) eqn:Hoff; [apply Hrest|].
  destruct (split_ws_once_cases line) as [[Hns ->]|(a & b & ->)];
    [|apply Hrest].
  intros [= <-]. split; [done|]. exists line.
  split; [apply list_elem_of_here|]. split; [|done].
  by intros ->.
Qed.

End Listing.

(** On lines made of a serial (not empty, without whitespace), a tab and
    a state, the loop returns, after the serials it already has, the
    serial of every line in which the text [offline] does not occur. *)
Lemma get_devices_loop_listing (entries : list (str * str))
    (devices : list str) :
  Forall (fun e => e.1 <> [] /\ no_space e.1) entries ->
  get_devices_loop (map (fun e => device_line e.1 e.2) entries) devices
    = Return (devices ++
                map fst
                  (filter
                     (fun e => contains (lit "offline") (device_line e.1 e.2)
                               = false)
                     entries)).
Proof.
  intros Hall. revert devices.
  induction Hall as [|[serial state] entries [Hne Hns] _ IH]; intros devices.
  - simpl. by rewrite app_nil_r.
  - cbn [map fst snd get_devices_loop] in *.
    destruct serial as [|c serial]; [done|].
    assert (Hline : c ∈ device_line (c :: serial) state)
      by apply list_elem_of_here.
    rewrite (strip_not_blank c _ Hline) by apply Hns, list_elem_of_here.
    rewrite filter_cons. cbn [fst snd].
    destruct (contains (lit "offline") (device_line (c :: serial) state))
      eqn:Hoff.
    + rewrite decide_False by done. apply IH.
    + rewrite decide_True by done.
      unfold device_line at 1. cbn [app].
      change (c :: serial ++ TAB :: state) with ((c :: serial) ++ TAB :: state).
      rewrite split_ws_once_at by done.
      rewrite IH. cbn [map fst]. by rewrite <- app_assoc.
Qed.

(** X5.  A line that is not blank, does not hold the text [offline] and
    has no whitespace at all cannot be split into a serial and a state:
    with such a line anywhere after the header, the loop of [get_devices]
    raises [ValueError] and returns no device list. *)
Theorem get_devices_loop_unsplittable (lines devices : list str) (line : str) :
  line ∈ lines ->
  line <> [] -> no_space line -> contains (lit "offline") line = false ->
  get_devices_loop lines devices = Raise ValueError.
Proof.
  intros Hin Hne Hns Hoff. revert devices.
  induction lines as [|l lines IH]; intros devices;
    [by apply elem_of_nil in Hin|].
  apply elem_of_cons in Hin as [<-|Hin].
  - cbn [get_devices_loop]. destruct line as [|c line]; [done|].
    rewrite (strip_not_blank c) by (try apply list_elem_of_here;
                                    apply Hns, list_elem_of_here).
    rewrite Hoff. by rewrite split_ws_once_no_space.
  - cbn [get_devices_loop]. destruct (is_empty (strip l)); [by apply IH|].
    destruct (contains (lit "offline") l); [by apply IH|].
    destruct (split_ws_once l) as [|h [|t [|? ?]]]; try done. by apply IH.
Qed.

Lemma get_devices_loop_unsplittable_witness :
  get_devices_loop
    [device_line (lit "abc123") (lit "device"); lit "*daemon-started*"] []
    = Raise ValueError.
Proof.
  apply (get_devices_loop_unsplittable _ _ (lit "*daemon-started*"));
    [compute_done | done | | reflexivity].
  intros c Hc.
  repeat (apply elem_of_cons in Hc as [->|Hc]; [reflexivity|]).
  by apply elem_of_nil in Hc.
Defined.

(** X6.  When the loop of [get_devices] returns, it has kept the serials
    it started with and added at most one per line; every serial added is
    the text in front of the first whitespace of a line without the text
    [offline], and so holds no whitespace itself. *)
Theorem get_devices_loop_returns (lines devices result : list str) :
  get_devices_loop lines devices = Return result ->
  exists added : list str,
    result = devices ++ added /\
    length added <= length lines /\
    Forall (fun serial =>
              no_space serial /\
              exists line c rest,
                line ∈ lines /\ line = serial ++ c :: rest /\
                isspace c = true /\
                contains (lit "offline") line = false) added.
Proof.
  revert devices.
  induction lines as [|line lines IH]; intros devices; cbn [get_devices_loop].
  - intros [= <-]. exists []. by rewrite app_nil_r.
  - assert (Hweaken : forall added : list str,
              Forall (fun serial =>
                no_space serial /\
                exists l c rest,
                  l ∈ lines /\ l = serial ++ c :: rest /\
                  isspace c = true /\ contains (lit "offline") l = false) added ->
              Forall (fun serial =>
                no_space serial /\
                exists l c rest,
                  l ∈ line :: lines /\ l = serial ++ c :: rest /\
                  isspace c = true /\ contains (lit "offline") l = false) added).
    { intros added Hadded. eapply Forall_impl; [exact Hadded|].
      intros serial (Hns & l & c & rest & Hl & Heq & Hc & Hoff).
      split; [done|]. exists l, c, rest.
      split; [by apply list_elem_of_further|done]. }
    destruct (is_empty (strip line)).
    { intros (added & -> & Hlen & Hall)%IH. exists added.
      split; [done|]. split; [simpl; lia|]. by apply Hweaken. }
    destruct (contains (lit "offline") line) eqn:Hoff.
    { intros (added & -> & Hlen & Hall)%IH. exists added.
      split; [done|]. split; [simpl; lia|]. by apply Hweaken. }
    destruct (split_ws_once line) as [|h [|t [|? ?]]] eqn:Hs; try done.
    intros (added & -> & Hlen & Hall)%IH.
    destruct (split_ws_once_inv line h t Hs) as (Hns & c & rest & Hline & Hc & _).
    exists (h :: added). split; [by rewrite <- app_assoc|].
    split; [simpl; lia|].
    constructor; [|by apply Hweaken].
    split; [done|]. exists line, c, rest.
    split; [apply list_elem_of_here|done].
Qed.

Lemma get_devices_loop_returns_witness :
  exists added : list str,
    [lit "abc123"] = [] ++ added /\
    length added <= 2 /\
    Forall (fun serial =>
              no_space serial /\
              exists line c rest,
                line ∈ [lit "abc123  device usb:1-1"; lit "def456 offline"] /\
                line = serial ++ c :: rest /\
                isspace c = true /\
                contains (lit "offline") line = false) added.
Proof.
  apply (get_devices_loop_returns
           [lit "abc123  device usb:1-1"; lit "def456 offline"] []
           [lit "abc123"]).
  reflexivity.
Defined.

(** ** Finding a device: processes and handles *)

Section Finding.

Variable h : host.

Lemma get_devices_start_failed (adb_path : str) (t : trace) :
  let start := [adb_path; lit "start-server"] in
  returncode (run h t start) <> 0%Z ->
  get_devices h adb_path t
    = (Raise (CalledProcessError (returncode (run h t start)) start []),
       t ++ [start]).
Proof.
  intros start Hrc.
  unfold get_devices, bind, check_call, bind, spawn. fold start.
  by destruct (Z.eqb_spec (returncode (run h t start)) 0).
Qed.

Lemma get_devices_list_failed (adb_path : str) (t : trace) :
  let start := [adb_path; lit "start-server"] in
  let list := [adb_path; lit "devices"] in
  let p := run h (t ++ [start]) list in
  returncode (run h t start) = 0%Z ->
  returncode p <> 0%Z ->
  get_devices h adb_path t
    = (Raise (CalledProcessError (returncode p) list (stdout p)),
       (t ++ [start]) ++ [list]).
Proof.
  intros start list p H0 H1.
  unfold get_devices, bind, check_call, check_output, bind, spawn.
  fold start. rewrite H0. cbn [Z.eqb ret]. fold list. fold p.
  by destruct (Z.eqb_spec (returncode p) 0).
Qed.

(** Each outcome of [get_devices], by the exit status of its processes. *)
Lemma get_devices_cases (adb_path : str) (t : trace) :
  let start := [adb_path; lit "start-server"] in
  let list := [adb_path; lit "devices"] in
  let p0 := run h t start in
  let p1 := run h (t ++ [start]) list in
  (returncode p0 <> 0%Z /\
   get_devices h adb_path t
     = (Raise (CalledProcessError (returncode p0) start []), t ++ [start])) \/
  (returncode p0 = 0%Z /\ returncode p1 <> 0%Z /\
   get_devices h adb_path t
     = (Raise (CalledProcessError (returncode p1) list (stdout p1)),
        (t ++ [start]) ++ [list])) \/
  (returncode p0 = 0%Z /\ returncode p1 = 0%Z /\
   get_devices h adb_path t
     = (get_devices_loop (slice_from 1 (splitlines (stdout p1))) [],
        (t ++ [start]) ++ [list])).
Proof.
  intros start list p0 p1.
  destruct (decide (returncode p0 = 0%Z)) as [H0|H0].
  - destruct (decide (returncode p1 = 0%Z)) as [H1|H1].
    + right. right. repeat split; try done. by apply get_devices_run.
    + right. left. repeat split; try done. by apply get_devices_list_failed.
  - left. split; [done|]. by apply get_devices_start_failed.
Qed.

Lemma get_devices_return_trace (adb_path : str) (t t' : trace)
    (devices : list str) :
  get_devices h adb_path t = (Return devices, t') ->
  t' = t ++ [[adb_path; lit "start-server"]; [adb_path; lit "devices"]].
Proof.
  intros Hd.
  destruct (get_devices_cases adb_path t)
    as [[_ Hg]|[(_ & _ & Hg)|(_ & _ & Hg)]];
    rewrite Hg in Hd; try done.
  injection Hd as _ <-. by rewrite <- app_assoc.
Qed.

Lemma get_device_by_serial_loop_return (devices : list str) (serial : str)
    (product : option str) (adb_path : str) (d : AndroidDevice) :
  _get_device_by_serial_loop devices serial product adb_path = Return d ->
  serial ∈ devices /\ d = AndroidDevice_init (Some serial) product adb_path.
Proof.
  induction devices as [|x devices IH]; simpl; [done|].
  case_bool_decide as Hx.
  - intros [= <-]. subst x. split; [apply list_elem_of_here|done].
  - intros [Hin Hd]%IH. split; [by apply list_elem_of_further|done].
Qed.

Lemma get_device_by_serial_return (serial : str) (product : option str)
    (adb_path : str) (t t' : trace) (d : AndroidDevice) :
  _get_device_by_serial h serial product adb_path t = (Return d, t') ->
  exists devices,
    get_devices h adb_path t = (Return devices, t') /\
    serial ∈ devices /\
    d = AndroidDevice_init (Some serial) product adb_path.
Proof.
  unfold _get_device_by_serial, bind, of_result.
  destruct (get_devices h adb_path t) as [[devices|e] t''] eqn:Hd; [|done].
  intros [= Hloop <-]. exists devices. split; [done|].
  by apply get_device_by_serial_loop_return.
Qed.

End Finding.

(** X7.  [get_devices] by the exit status of its two processes.  When
    [start-server] exits with a status other than zero the listing is not
    asked for, and when the listing does, its output is not read; in both
    cases the error is [CalledProcessError] with that command line and
    status.  When both exit with status zero, the only error left is the
    [ValueError] of a line that cannot be split: it is raised after both
    processes, and only if a line after the header is not empty, holds no
    whitespace and does not hold the text [offline]. *)
Theorem get_devices_failures (h : host) (adb_path : str) (t : trace) :
  let start := [adb_path; lit "start-server"] in
  let listing := [adb_path; lit "devices"] in
  let p0 := run h t start in
  let p1 := run h (t ++ [start]) listing in
  (returncode p0 <> 0%Z ->
   get_devices h adb_path t
     = (Raise (CalledProcessError (returncode p0) start []), t ++ [start])) /\
  (returncode p0 = 0%Z -> returncode p1 <> 0%Z ->
   get_devices h adb_path t
     = (Raise (CalledProcessError (returncode p1) listing (stdout p1)),
        t ++ [start; listing])) /\
  (returncode p0 = 0%Z -> returncode p1 = 0%Z ->
   forall (e : exn) (t' : trace),
     get_devices h adb_path t = (Raise e, t') ->
     e = ValueError /\ t' = t ++ [start; listing] /\
     exists line,
       line ∈ slice_from 1 (splitlines (stdout p1)) /\
       line <> [] /\ no_space line /\
       contains (lit "offline") line = false).
Proof.
  intros start listing p0 p1. split; [|split].
  - apply get_devices_start_failed.
  - intros H0 H1.
    rewrite (get_devices_list_failed h adb_path t H0 H1).
    by rewrite <- app_assoc.
  - intros H0 H1 e t' Hr.
    rewrite (get_devices_run h adb_path t H0 H1) in Hr.
    injection Hr as Hl <-.
    apply get_devices_loop_raise in Hl as [-> Hline].
    split; [done|]. split; [by rewrite <- app_assoc|done].
Qed.

Lemma get_devices_failures_witness :
  (forall (e : exn) (t' : trace),
     get_devices
         (sample_host []
            (lit "List of devices attached" ++ [LF]
               ++ lit "* daemon started successfully *" ++ [LF]
               ++ lit "abc123" ++ [LF])
            None)
         (lit "adb") []
       = (Raise e, t') ->
     e = ValueError /\
     t' = [[lit "adb"; lit "start-server"]; [lit "adb"; lit "devices"]] /\
     exists line,
       line ∈ [lit "* daemon started successfully *"; lit "abc123"] /\
       line <> [] /\ no_space line /\
       contains (lit "offline") line = false) /\
  fst (get_devices
         (sample_host []
            (lit "List of devices attached" ++ [LF]
               ++ lit "* daemon started successfully *" ++ [LF]
               ++ lit "abc123" ++ [LF])
            None)
         (lit "adb") [])
    = Raise ValueError.
Proof.
  split; [|reflexivity].
  apply (proj2 (proj2 (get_devices_failures
                         (sample_host []
                            (lit "List of devices attached" ++ [LF]
                               ++ lit "* daemon started successfully *" ++ [LF]
                               ++ lit "abc123" ++ [LF])
                            None)
                         (lit "adb") []))); reflexivity.
Defined.

(** X8.  When [get_device] returns a handle, exactly the two processes of
    one device listing have run, the handle is a fresh one for a serial of
    that listing (the serial asked for, else the one of the environment,
    else the only one listed), and its address arguments are the path of
    the bridge, [-s] and the serial, then [-p] and the product if one was
    given. *)
Theorem get_device_returns (h : host) (serial product : option str)
    (adb_path : str) (t t' : trace) (d : AndroidDevice) :
  get_device h serial product adb_path t = (Return d, t') ->
  exists (devices : list str) (s : str),
    get_devices h adb_path t = (Return devices, t') /\
    t' = t ++ [[adb_path; lit "start-server"]; [adb_path; lit "devices"]] /\
    s ∈ devices /\
    match serial, environ h (lit "ANDROID_SERIAL") with
    | Some x, _ => s = x
    | None, Some x => s = x
    | None, None => devices = [s]
    end /\
    d = AndroidDevice_init (Some s) product adb_path /\
    adb_cmd d
      = [adb_path; lit "-s"; s]
          ++ match product with Some p => [lit "-p"; p] | None => [] end /\
    _features d = None /\ _linesep d = None.
Proof.
  unfold get_device.
  assert (Hinit : forall s,
            adb_cmd (AndroidDevice_init (Some s) product adb_path)
              = [adb_path; lit "-s"; s]
                  ++ match product with Some p => [lit "-p"; p] | None => [] end)
    by (intros s; by destruct product).
  destruct serial as [x|]; [|destruct (environ h (lit "ANDROID_SERIAL")) as [x|]].
  - intros (devices & Hd & Hin & ->)%get_device_by_serial_return.
    exists devices, x. repeat split; try done.
    by apply (get_devices_return_trace h adb_path t t' devices).
  - intros (devices & Hd & Hin & ->)%get_device_by_serial_return.
    exists devices, x. repeat split; try done.
    by apply (get_devices_return_trace h adb_path t t' devices).
  - unfold _get_unique_device, bind.
    destruct (get_devices h adb_path t) as [[devices|e] t''] eqn:Hd; [|done].
    destruct devices as [|s [|? ?]]; try done.
    intros [= <- <-]. exists [s], s. repeat split; try done.
    + by apply (get_devices_return_trace h adb_path t t'' [s]).
    + apply list_elem_of_here.
Qed.

Lemma get_device_returns_witness :
  exists (devices : list str) (s : str),
    get_devices
        (sample_host [] (lit "List of devices attached" ++ [LF]
                           ++ device_line (lit "abc123") (lit "device") ++ [LF])
           None)
        (lit "adb") []
      = (Return devices, [[lit "adb"; lit "start-server"]; [lit "adb"; lit "devices"]]) /\
    [[lit "adb"; lit "start-server"]; [lit "adb"; lit "devices"]]
      = [] ++ [[lit "adb"; lit "start-server"]; [lit "adb"; lit "devices"]] /\
    s ∈ devices /\
    devices = [s] /\
    AndroidDevice_init (Some (lit "abc123")) (Some (lit "sailfish")) (lit "adb")
      = AndroidDevice_init (Some s) (Some (lit "sailfish")) (lit "adb") /\
    adb_cmd (AndroidDevice_init (Some (lit "abc123")) (Some (lit "sailfish"))
               (lit "adb"))
      = [lit "adb"; lit "-s"; s] ++ [lit "-p"; lit "sailfish"] /\
    _features (AndroidDevice_init (Some (lit "abc123")) (Some (lit "sailfish"))
                 (lit "adb")) = None /\
    _linesep (AndroidDevice_init (Some (lit "abc123")) (Some (lit "sailfish"))
                (lit "adb")) = None.
Proof.
  apply (get_device_returns
           (sample_host [] (lit "List of devices attached" ++ [LF]
                              ++ device_line (lit "abc123") (lit "device") ++ [LF])
              None)
           None (Some (lit "sailfish")) (lit "adb") []).
  reflexivity.
Defined.

(** X9.  [get_usb_device] and [get_emulator_device] ask the bridge for
    the serial of the one device of that kind.  A failing query becomes a
    [RuntimeError]; the answer [unknown], with whitespace around it
    ignored, becomes [NoUniqueDeviceError]; any other answer is looked up
    in a device listing made afterwards, giving a handle without product,
    or [DeviceNotFoundError] when the listing does not show it. *)
Theorem get_device_by_type_outcomes (h : host) (flag adb_path : str)
    (t : trace) :
  let start := [adb_path; lit "start-server"] in
  let query := [adb_path; flag; lit "get-serialno"] in
  let p := run h (t ++ [start]) query in
  let t2 := t ++ [start; query] in
  let serial := strip (stdout p) in
  returncode (run h t start) = 0%Z ->
  (returncode p <> 0%Z ->
   _get_device_by_type h flag adb_path t
     = (Raise (RuntimeError (lit "adb unexpectedly returned nonzero")), t2)) /\
  (returncode p = 0%Z -> serial = lit "unknown" ->
   _get_device_by_type h flag adb_path t = (Raise NoUniqueDeviceError, t2)) /\
  (returncode p = 0%Z -> serial <> lit "unknown" ->
   forall (devices : list str) (t3 : trace),
     get_devices h adb_path t2 = (Return devices, t3) ->
     _get_device_by_type h flag adb_path t
       = (if bool_decide (serial ∈ devices)
          then Return (AndroidDevice_init (Some serial) None adb_path)
          else Raise (DeviceNotFoundError serial), t3)).
Proof.
  intros start query p t2 serial H0.
  unfold _get_device_by_type, bind, try_except, check_call, check_output,
    bind, spawn.
  fold start. rewrite H0. cbn [Z.eqb ret]. fold query. fold p.
  assert (Ht2 : (t ++ [start]) ++ [query] = t2)
    by (unfold t2; by rewrite <- app_assoc).
  rewrite Ht2.
  destruct (Z.eqb_spec (returncode p) 0) as [Hp|Hp]; split; try done;
    split; try done.
  - intros _ Hs. cbn [ret raise]. fold serial. by rewrite bool_decide_eq_true_2.
  - intros _ Hs devices t3 Hd. cbn [ret]. fold serial.
    rewrite bool_decide_eq_false_2 by done.
    rewrite (get_device_by_serial_run h devices serial None adb_path t2 t3 Hd).
    case_bool_decide.
    + by rewrite get_device_by_serial_loop_present.
    + by rewrite get_device_by_serial_loop_absent.
Qed.

Lemma get_device_by_type_outcomes_witness :
  get_usb_device (sample_host [] (lit " unknown" ++ [CR; LF]) None) (lit "adb") []
    = (Raise NoUniqueDeviceError,
       [[lit "adb"; lit "start-server"]; [lit "adb"; lit "-d"; lit "get-serialno"]]).
Proof.
  destruct (get_device_by_type_outcomes
              (sample_host [] (lit " unknown" ++ [CR; LF]) None)
              (lit "-d") (lit "adb") [] eq_refl) as (_ & Hunknown & _).
  exact (Hunknown eq_refl eq_refl).
Defined.

(** ** The handle: caches and shell commands *)

Section Handle.

Variable h : host.

Lemma features_uncached (d : AndroidDevice) (t : trace) :
  let query := adb_cmd d ++ [lit "features"] in
  let p := run h t query in
  let fs := if (returncode p =? 0)%Z then splitlines (merged p) else [] in
  _features d = None ->
  features h (d, t) = (Return fs, (set_features fs d, t ++ [query])).
Proof.
  intros query p fs Hc.
  unfold features, bind, self. cbn [fst snd]. rewrite Hc.
  unfold try_except, bind, _simple_call, bind, self, on_host,
    _subprocess_check_output, try_except, check_output_STDOUT, bind, spawn.
  cbn [fst snd]. fold query. fold p. subst fs.
  by destruct (returncode p =? 0)%Z.
Qed.

Lemma set_features_cached (d : AndroidDevice) (fs : list str) :
  _features d = Some fs -> set_features fs d = d.
Proof. destruct d. simpl. by intros ->. Qed.

End Handle.

(** X10.  The feature list of a handle is asked of the bridge at most
    once.  A filled cache is answered without a process.  With an empty
    cache the [features] query is started: when it exits with status zero
    the list is the lines of what it wrote to its two streams; when it
    exits with another status that is no error of [features], the list is
    then empty.  In both cases the list is left in the cache, a failed
    query included, so that every later read gives the same list without
    a process. *)
Theorem features_query_once (h : host) (d : AndroidDevice) (t : trace) :
  let query := adb_cmd d ++ [lit "features"] in
  let p := run h t query in
  (forall fs, _features d = Some fs ->
     features h (d, t) = (Return fs, (d, t))) /\
  (_features d = None -> returncode p = 0%Z ->
   let fs := splitlines (merged p) in
   features h (d, t) = (Return fs, (set_features fs d, t ++ [query])) /\
   forall t' : trace,
     features h (set_features fs d, t')
       = (Return fs, (set_features fs d, t'))) /\
  (_features d = None -> returncode p <> 0%Z ->
   features h (d, t) = (Return [], (set_features [] d, t ++ [query])) /\
   forall t' : trace,
     features h (set_features [] d, t')
       = (Return [], (set_features [] d, t'))).
Proof.
  intros query p. split; [|split].
  - intros fs. apply features_cached.
  - intros Hc Hp fs. split; [|intros t'; by apply features_cached].
    rewrite (features_uncached h d t Hc). fold query. fold p.
    by rewrite Hp.
  - intros Hc Hp. split; [|intros t'; by apply features_cached].
    rewrite (features_uncached h d t Hc). fold query. fold p.
    by destruct (Z.eqb_spec (returncode p) 0).
Qed.

Lemma features_query_once_witness :
  features
      {| run := fun _ _ =>
           {| returncode := 1; stdout := []; stderr := [];
              merged := lit "error: no devices/emulators found" |};
         environ := fun _ => None |}
      (sample_device, [])
    = (Return [],
       (set_features [] sample_device,
        [[lit "adb"; lit "-s"; lit "abc123"; lit "features"]])) /\
  features (sample_host (lit "shell_v2" ++ [LF] ++ lit "cmd" ++ [LF]) [] None)
      (sample_device, [])
    = (Return [lit "shell_v2"; lit "cmd"],
       (set_features [lit "shell_v2"; lit "cmd"] sample_device,
        [[lit "adb"; lit "-s"; lit "abc123"; lit "features"]])).
Proof.
  split.
  - destruct (features_query_once
                {| run := fun _ _ =>
                     {| returncode := 1; stdout := []; stderr := [];
                        merged := lit "error: no devices/emulators found" |};
                   environ := fun _ => None |}
                sample_device []) as (_ & _ & Hfail).
    refine (proj1 (Hfail eq_refl _)). simpl. lia.
  - destruct (features_query_once
                (sample_host (lit "shell_v2" ++ [LF] ++ lit "cmd" ++ [LF]) []
                   None)
                sample_device []) as (_ & Hfill & _).
    exact (proj1 (Hfill eq_refl eq_refl)).
Defined.

(** X11.  The line separator of a handle is probed with [shell echo], a
    command that gets no exit-code epilogue, and is what that process
    prints.  A probe that succeeds fills the cache, and later reads start
    no process; a probe that fails raises [CalledProcessError] and leaves
    the cache empty, so that the next read probes again. *)
Theorem linesep_probe (h : host) (d : AndroidDevice) (t : trace) :
  let probe := adb_cmd d ++ [lit "shell"; lit "echo"] in
  let p := run h t probe in
  (forall l, _linesep d = Some l -> linesep h (d, t) = (Return l, (d, t))) /\
  (_linesep d = None -> returncode p = 0%Z ->
   linesep h (d, t)
     = (Return (stdout p), (set_linesep (stdout p) d, t ++ [probe])) /\
   forall t' : trace,
     linesep h (set_linesep (stdout p) d, t')
       = (Return (stdout p), (set_linesep (stdout p) d, t'))) /\
  (_linesep d = None -> returncode p <> 0%Z ->
   linesep h (d, t)
     = (Raise (CalledProcessError (returncode p) probe (stdout p)),
        (d, t ++ [probe]))).
Proof.
  intros probe p. split; [|split].
  - intros l Hc. unfold linesep, bind, self. cbn [fst snd]. by rewrite Hc.
  - intros Hc Hp. split.
    + unfold linesep, bind, self. cbn [fst snd]. rewrite Hc.
      unfold on_host, check_output, bind, spawn. cbn [fst snd].
      fold probe. fold p. by rewrite Hp.
    + intros t'. unfold linesep, bind, self. by cbn.
  - intros Hc Hp. unfold linesep, bind, self. cbn [fst snd]. rewrite Hc.
    unfold on_host, check_output, bind, spawn. cbn [fst snd].
    fold probe. fold p. by destruct (Z.eqb_spec (returncode p) 0).
Qed.

Lemma linesep_probe_witness :
  linesep (sample_host [] [CR; LF] None) (sample_device, [])
    = (Return [CR; LF],
       (set_linesep [CR; LF] sample_device,
        [[lit "adb"; lit "-s"; lit "abc123"; lit "shell"; lit "echo"]])).
Proof.
  destruct (linesep_probe (sample_host [] [CR; LF] None) sample_device [])
    as (_ & Hfill & _).
  exact (proj1 (Hfill eq_refl eq_refl)).
Defined.

(** X12.  When [shell_nocheck] returns, it has started one shell
    process, after the [features] query if the cache was empty, and
    nothing else; the command line of that process is the address
    arguments, [shell] and the words of the caller in their order,
    followed by the exit-code epilogue exactly when [shell_v2] is not in
    the feature list; and the handle is as before but for the feature
    list, which is then in the cache. *)
Theorem shell_nocheck_footprint (h : host) (cmd : list str)
    (d d1 : AndroidDevice) (t t1 : trace) (r : Z * str * str) :
  shell_nocheck h cmd (d, t) = (Return r, (d1, t1)) ->
  exists fs : list str,
    d1 = set_features fs d /\
    (forall fs0, _features d = Some fs0 -> fs0 = fs /\ d1 = d) /\
    t1 = t ++ match _features d with
              | Some _ => []
              | None => [adb_cmd d ++ [lit "features"]]
              end
           ++ [adb_cmd d ++ [lit "shell"] ++ cmd
                 ++ if list_in SHELL_PROTOCOL_FEATURE fs then []
                    else [lit "; " ++ _RETURN_CODE_PROBE_STRING]].
Proof.
  intros Hs.
  destruct (features_fills_cache h d t) as (fs & d' & t' & Hf & _ & _).
  assert (Hstate : d' = set_features fs d /\
            (forall fs0, _features d = Some fs0 -> fs0 = fs) /\
            t' = t ++ match _features d with
                      | Some _ => []
                      | None => [adb_cmd d ++ [lit "features"]]
                      end).
  { destruct (_features d) as [fs0|] eqn:Hd.
    - rewrite (features_cached h d t fs0 Hd) in Hf.
      injection Hf as <- <- <-.
      rewrite (set_features_cached d fs0 Hd), app_nil_r.
      split; [done|]. split; [|done]. by intros ? [= <-].
    - rewrite (features_uncached h d t Hd) in Hf.
      injection Hf as <- <- <-. by repeat split. }
  destruct Hstate as (-> & Hsame & ->).
  exists fs.
  assert (Ht1 : d1 = set_features fs d /\
            t1 = (t ++ match _features d with
                       | Some _ => []
                       | None => [adb_cmd d ++ [lit "features"]]
                       end)
                 ++ [adb_cmd d ++ [lit "shell"] ++ cmd
                       ++ if list_in SHELL_PROTOCOL_FEATURE fs then []
                          else [lit "; " ++ _RETURN_CODE_PROBE_STRING]]).
  { destruct (list_in SHELL_PROTOCOL_FEATURE fs) eqn:Hin.
    - rewrite (shell_nocheck_structured h d _ t _ fs cmd Hf Hin) in Hs.
      injection Hs as _ <- <-. by rewrite app_nil_r.
    - rewrite (shell_nocheck_legacy h d _ t _ fs cmd Hf Hin) in Hs.
      by injection Hs as _ <- <-. }
  destruct Ht1 as [-> ->]. rewrite <- app_assoc. repeat split; try done.
  - by apply Hsame.
  - apply set_features_cached. rewrite H. f_equal. by apply Hsame.
Qed.

Lemma shell_nocheck_footprint_witness :
  exists fs : list str,
    set_features [lit "cmd"] sample_device = set_features fs sample_device /\
    (forall fs0, _features sample_device = Some fs0 ->
       fs0 = fs /\ set_features [lit "cmd"] sample_device = sample_device) /\
    [[lit "adb"; lit "-s"; lit "abc123"; lit "features"];
     [lit "adb"; lit "-s"; lit "abc123"; lit "shell"; lit "ls"; lit "/"]
       ++ [lit "; " ++ _RETURN_CODE_PROBE_STRING]]
      = [] ++ match _features sample_device with
              | Some _ => []
              | None => [adb_cmd sample_device ++ [lit "features"]]
              end
           ++ [adb_cmd sample_device ++ [lit "shell"] ++ [lit "ls"; lit "/"]
                 ++ if list_in SHELL_PROTOCOL_FEATURE fs then []
                    else [lit "; " ++ _RETURN_CODE_PROBE_STRING]].
Proof.
  apply (shell_nocheck_footprint
           (sample_host (lit "cmd") (lit "sdcard" ++ [LF] ++ lit "x0" ++ [LF]) None)
           [lit "ls"; lit "/"] sample_device _ [] _
           (0%Z, lit "sdcard" ++ [LF], [])).
  reflexivity.
Defined.

(** X13.  A legacy-mode round trip through the handle: when [shell_v2] is
    not in the feature list and the shell process prints a payload, the
    delimiter and an exit code between 0 and 255, alone or followed by LF
    or CR LF, [shell_nocheck] returns that exit code, the payload and the
    standard error of the process; [shell] then returns the payload and
    the standard error for the exit code 0 and raises [ShellError] with
    the command of the caller, the payload and the exit code otherwise. *)
Theorem shell_legacy_round_trip (h : host) (d d1 : AndroidDevice)
    (t t1 : trace) (fs cmd : list str) (payload eol : str) (n : Z) :
  features h (d, t) = (Return fs, (d1, t1)) ->
  list_in SHELL_PROTOCOL_FEATURE fs = false ->
  let argv := adb_cmd d ++ [lit "shell"] ++ cmd
                ++ [lit "; " ++ _RETURN_CODE_PROBE_STRING] in
  let p := run h t1 argv in
  stdout p = payload ++ _RETURN_CODE_DELIMITER ++ decimal n ++ eol ->
  (0 <= n <= 255)%Z ->
  eol ∈ [[]; [LF]; [CR; LF]] ->
  shell_nocheck h cmd (d, t)
    = (Return (n, payload, stderr p), (d1, t1 ++ [argv])) /\
  shell h cmd (d, t)
    = (if (n =? 0)%Z then Return (payload, stderr p)
       else Raise (ShellError cmd payload (stderr p) n), (d1, t1 ++ [argv])).
Proof.
  intros Hf Hlegacy argv p Hout Hn Heol.
  assert (Hparse : _parse_shell_output (stdout p) = Return (n, payload)).
  { rewrite Hout.
    change (_RETURN_CODE_DELIMITER ++ decimal n ++ eol)
      with (delimiter :: (decimal n ++ eol)).
    apply elem_of_cons in Heol as [->|Heol].
    - rewrite app_nil_r.
      destruct (exit_code_text n Hn) as (Hx & Hlen & Hint).
      by rewrite parse_delimited, Hint.
    - pose proof (exit_code_lines_ok eol Heol) as Hall.
      rewrite forallb_forall in Hall. specialize (Hall n).
      unfold exit_code_line_ok in Hall.
      rewrite !andb_true_iff, !bool_decide_eq_true, Nat.ltb_lt in Hall.
      destruct Hall as [[Hx Hlen] Hint].
      { apply in_map_iff. exists (Z.to_nat n). split; [lia|]. apply in_seq. lia. }
      by rewrite parse_delimited, Hint. }
  assert (Hnc : shell_nocheck h cmd (d, t)
                = (Return (n, payload, stderr p), (d1, t1 ++ [argv]))).
  { rewrite (shell_nocheck_legacy h d d1 t t1 fs cmd Hf Hlegacy).
    fold argv. fold p. by rewrite Hparse. }
  split; [done|]. by apply shell_of_shell_nocheck.
Qed.

Lemma shell_legacy_round_trip_witness :
  fst (shell (sample_host [] (lit "sdcard" ++ [LF] ++ lit "x0" ++ [CR; LF]) None)
         [lit "ls"; lit "/"] (sample_device, []))
    = Return (lit "sdcard" ++ [LF], []).
Proof.
  pose (h := sample_host [] (lit "sdcard" ++ [LF] ++ lit "x0" ++ [CR; LF]) None).
  destruct (shell_legacy_round_trip h sample_device
              (set_features [] sample_device) []
              [[lit "adb"; lit "-s"; lit "abc123"; lit "features"]]
              [] [lit "ls"; lit "/"] (lit "sdcard" ++ [LF]) [CR; LF] 0%Z
              eq_refl eq_refl eq_refl ltac:(lia) ltac:(compute_done))
    as [_ Hshell].
  exact (f_equal fst Hshell).
Defined.

(** ** Reading properties: lines and values *)

Section Lines.

Implicit Types (c : ascii) (s cur v line : str).

Lemma no_eol_nil : no_eol [].
Proof. split; apply not_elem_of_nil. Qed.

Lemma no_eol_cons c s :
  no_eol (c :: s) <-> Ascii.eqb c LF = false /\ Ascii.eqb c CR = false /\ no_eol s.
Proof.
  unfold no_eol. rewrite !not_elem_of_cons, !Ascii.eqb_neq.
  split; [intros [[? ?] [? ?]]|intros (? & ? & ? & ?)]; repeat split; auto.
Qed.

Lemma no_eol_rev s : no_eol s -> no_eol (rev s).
Proof.
  unfold no_eol. by rewrite !list_elem_of_In, <- !in_rev.
Qed.

(** No line of [splitlines] holds a line terminator. *)
Lemma splitlines_from_no_eol s cur :
  no_eol cur -> Forall no_eol (splitlines_from cur s).
Proof.
  revert cur. induction s as [|c s IH]; intros cur Hcur; simpl.
  - destruct cur; [constructor|].
    constructor; [by apply no_eol_rev|constructor].
  - pose proof (IH [] no_eol_nil) as Hnil.
    destruct (Ascii.eqb c LF) eqn:Hlf.
    { constructor; [by apply no_eol_rev|done]. }
    destruct (Ascii.eqb c CR) eqn:Hcr.
    + destruct s as [|c' s']; [by constructor; [apply no_eol_rev|]|].
      destruct (Ascii.eqb c' LF) eqn:Hlf'.
      * constructor; [by apply no_eol_rev|].
        simpl in Hnil. rewrite Hlf' in Hnil. by inversion Hnil.
      * constructor; [by apply no_eol_rev|done].
    + apply IH. by apply no_eol_cons.
Qed.

Lemma splitlines_from_nil s cur :
  splitlines_from cur s = [] -> s = [] /\ cur = [].
Proof.
  revert cur. induction s as [|c s IH]; intros cur; simpl.
  - by destruct cur.
  - destruct (Ascii.eqb c LF); [done|].
    destruct (Ascii.eqb c CR).
    + destruct s as [|c' s']; [done|]. by destruct (Ascii.eqb c' LF).
    + by intros [_ ?]%IH.
Qed.

(** A text that makes one line is that line and at most one line end. *)
Lemma splitlines_from_single s cur v :
  splitlines_from cur s = [v] ->
  exists eol, rev cur ++ s = v ++ eol /\ eol ∈ line_ends.
Proof.
  revert cur. induction s as [|c s IH]; intros cur; simpl.
  - destruct cur as [|x cur]; [done|]. intros [= <-].
    exists []. split; [done|]. apply list_elem_of_here.
  - destruct (Ascii.eqb_spec c LF) as [->|Hlf].
    { intros [= <- [-> _]%splitlines_from_nil].
      exists [LF]. split; [done|]. unfold line_ends. set_solver. }
    destruct (Ascii.eqb_spec c CR) as [->|Hcr].
    + destruct s as [|c' s'].
      { intros [= <-]. exists [CR]. split; [done|].
        unfold line_ends. set_solver. }
      destruct (Ascii.eqb_spec c' LF) as [->|Hlf'].
      * intros [= <- [-> _]%splitlines_from_nil].
        exists [CR; LF]. split; [done|]. unfold line_ends. set_solver.
      * intros [= <- Hn].
        by apply (splitlines_from_nil (c' :: s') []) in Hn as [? _].
    + intros (eol & Heq & Heol)%IH. exists eol. split; [|done].
      rewrite <- Heq. simpl. by rewrite <- app_assoc.
Qed.

Lemma splitlines_from_line v eol cur :
  no_eol v -> eol ∈ line_ends -> rev cur ++ v ++ eol <> [] ->
  splitlines_from cur (v ++ eol) = [rev cur ++ v].
Proof.
  intros Hv Heol. revert cur.
  induction v as [|c v IH]; intros cur Hne.
  - rewrite app_nil_r. simpl.
    unfold line_ends in Heol.
    repeat (apply elem_of_cons in Heol as [->|Heol]); try done.
    + simpl. rewrite app_nil_r in Hne. destruct cur as [|x cur]; [done|].
      done.
    + by apply elem_of_nil in Heol.
  - apply no_eol_cons in Hv as (Hlf & Hcr & Hv).
    cbn [app splitlines_from]. rewrite Hlf, Hcr.
    rewrite IH; [|done|].
    + simpl. by rewrite <- app_assoc.
    + simpl. rewrite <- app_assoc. by destruct (rev cur).
Qed.

End Lines.

Section PropsLoop.

Implicit Types (output : list str) (props : gmap str str)
  (kvs : list (str * str)).

Lemma get_props_loop_return output props (m : gmap str str) :
  get_props_loop output props = Return m ->
  exists kvs,
    Forall2 (fun line kv => getprop_pattern_match line = Some kv) output kvs /\
    NoDup kvs.*1 /\
    (forall key, key ∈ kvs.*1 -> props !! key = None) /\
    m = list_to_map kvs ∪ props.
Proof.
  revert props. induction output as [|line output IH]; intros props; simpl.
  - intros [= <-]. exists []. repeat split.
    + constructor.
    + constructor.
    + by intros key ?%elem_of_nil.
    + by rewrite list_to_map_nil, (left_id_L ∅ (∪)).
  - destruct (getprop_pattern_match line) as [[key value]|] eqn:Hm; [|done].
    case_bool_decide as Hdup; [done|].
    assert (Hkey : props !! key = None).
    { destruct (props !! key) eqn:Hk; [|done]. destruct Hdup. eauto. }
    intros (kvs & Hall & Hnd & Hfresh & ->)%IH.
    assert (Hnew : key ∉ kvs.*1).
    { intros Hin. apply Hfresh in Hin. by rewrite lookup_insert_eq in Hin. }
    exists ((key, value) :: kvs). repeat split.
    + by constructor.
    + simpl. by apply NoDup_cons.
    + intros k [->|Hk]%elem_of_cons; [done|].
      apply Hfresh in Hk. apply lookup_insert_None in Hk. tauto.
    + simpl. rewrite <- insert_union_l. symmetry. apply insert_union_r.
      by apply not_elem_of_list_to_map_1.
Qed.

End PropsLoop.

(** X15.  When [get_props] returns a mapping, it has exactly one entry
    per line of the output: every line begins with [[key]: [value]] for an
    entry of the mapping, every entry comes from such a line, and no key
    is empty or holds a closing bracket, and no value a line
    terminator. *)
Theorem get_props_returns (h : host) (s s' s'' : AndroidDevice * trace)
    (output err : str) (m : gmap str str) :
  shell h [lit "getprop"] s = (Return (output, err), s') ->
  get_props h s = (Return m, s'') ->
  s'' = s' /\
  size m = length (splitlines output) /\
  (forall line, line ∈ splitlines output ->
     exists key value,
       begins_with_getprop_form line key value /\ m !! key = Some value) /\
  (forall key value, m !! key = Some value ->
     key ≠ [] /\ ("]"%char ∉ key) /\ no_eol value /\
     exists line,
       line ∈ splitlines output /\ begins_with_getprop_form line key value).
Proof.
  intros Hs Hg. rewrite (get_props_run h s s' output err Hs) in Hg.
  injection Hg as Hloop <-. split; [done|].
  apply get_props_loop_return in Hloop as (kvs & Hall & Hnd & _ & ->).
  rewrite (right_id_L ∅ (∪)).
  split; [|split].
  - rewrite map_size_list_to_map by done. symmetry. by eapply Forall2_length.
  - intros line (i & Hi)%list_elem_of_lookup.
    destruct (Forall2_lookup_l _ _ _ i line Hall Hi) as ([key value] & Hkv & Hm).
    exists key, value. split; [by apply getprop_pattern_match_inv|].
    apply elem_of_list_to_map; [done|]. by eapply list_elem_of_lookup_2.
  - intros key value Hkv%elem_of_list_to_map; [|done].
    apply list_elem_of_lookup in Hkv as (i & Hi).
    destruct (Forall2_lookup_r _ _ _ i (key, value) Hall Hi) as (line & Hline & Hm).
    pose proof (getprop_pattern_match_inv line key value Hm) as Hform.
    assert (Hin : line ∈ splitlines output) by by eapply list_elem_of_lookup_2.
    pose proof (splitlines_from_no_eol output [] no_eol_nil) as Hlines.
    rewrite Forall_forall in Hlines. specialize (Hlines line Hin).
    destruct Hform as (rest & Heq & Hk1 & Hk2 & Hv & Hrest).
    repeat split; try done.
    + destruct Hlines as [_ Hcr]. intros Hc. apply Hcr. rewrite Heq.
      unfold getprop_line. rewrite !elem_of_app. tauto.
    + exists line. split; [done|]. by exists rest.
Qed.

Lemma get_props_returns_witness :
  size ({[ lit "ro.a" := lit "1"; lit "ro.b" := lit "2" ]} : gmap str str)
    = length (splitlines (lit "[ro.a]: [1]" ++ [CR; LF] ++ lit "[ro.b]: [2]" ++ [CR; LF])).
Proof.
  pose (h := sample_host (lit "shell_v2")
               (lit "[ro.a]: [1]" ++ [CR; LF] ++ lit "[ro.b]: [2]" ++ [CR; LF]) None).
  refine (proj1 (proj2 (get_props_returns h (sample_device, [])
                          (snd (shell h [lit "getprop"] (sample_device, [])))
                          (snd (get_props h (sample_device, [])))
                          _ [] _ eq_refl _))).
  by vm_compute.
Defined.

(** X16.  [get_prop] reads the output as one value and at most one line
    end (LF, CR or CR LF) after it.  A value with a character that is not
    whitespace comes back as it is, its own leading and trailing blanks
    included; a blank value, with a line end or not empty, comes back as
    [None]; an empty output is an error, the [RuntimeError] of a line
    count other than one; and whenever [get_prop] returns, the output was
    not empty and of one of these two shapes. *)
Theorem get_prop_by_output (h : host) (prop_name : str)
    (s s' : AndroidDevice * trace) (output err : str) :
  shell h [lit "getprop"; prop_name] s = (Return (output, err), s') ->
  (forall value eol,
     output = value ++ eol -> eol ∈ line_ends -> no_eol value ->
     strip value ≠ [] ->
     get_prop h prop_name s = (Return (Some value), s')) /\
  (forall value eol,
     output = value ++ eol -> eol ∈ line_ends -> no_eol value ->
     strip value = [] -> output ≠ [] ->
     get_prop h prop_name s = (Return None, s')) /\
  (output = [] ->
   get_prop h prop_name s
     = (Raise (RuntimeError (lit "Too many lines in getprop output:" ++ [LF])),
        s')) /\
  (forall (r : option str) (s'' : AndroidDevice * trace),
     get_prop h prop_name s = (Return r, s'') ->
     s'' = s' /\ output ≠ [] /\
     exists value eol,
       output = value ++ eol /\ eol ∈ line_ends /\ no_eol value /\
       r = if is_empty (strip value) then None else Some value).
Proof.
  intros Hs. rewrite (get_prop_run h prop_name s s' output err Hs).
  split; [|split; [|split]].
  - intros value eol -> Heol Hv Hstrip. unfold splitlines.
    rewrite (splitlines_from_line value eol []); [|done..|].
    + simpl. by destruct (strip value).
    + simpl. destruct value; [|done]. by destruct Hstrip.
  - intros value eol -> Heol Hv Hstrip Hne. unfold splitlines.
    rewrite (splitlines_from_line value eol []) by done.
    simpl. by rewrite Hstrip.
  - by intros ->.
  - intros r s'' Hr.
    destruct (splitlines output) as [|value [|? ?]] eqn:Hl; try done.
    assert (Hs'' : s'' = s').
    { by destruct (is_empty (strip value)); injection Hr as _ <-. }
    split; [done|]. split; [by intros ->|].
    pose proof (splitlines_from_single output [] value Hl) as (eol & Heq & Heol).
    pose proof (splitlines_from_no_eol output [] no_eol_nil) as Hlines.
    unfold splitlines in Hl. rewrite Hl in Hlines.
    apply Forall_cons in Hlines as [Hv _].
    exists value, eol. split; [done|]. split; [done|]. split; [done|].
    destruct (is_empty (strip value)); by injection Hr as <- _.
Qed.

Lemma get_prop_by_output_witness :
  fst (get_prop (sample_host (lit "shell_v2") (lit " running " ++ [CR; LF]) None)
         (lit "init.svc.adbd") (sample_device, []))
    = Return (Some (lit " running ")).
Proof.
  pose (h := sample_host (lit "shell_v2") (lit " running " ++ [CR; LF]) None).
  destruct (get_prop_by_output h (lit "init.svc.adbd") (sample_device, [])
              (snd (shell h [lit "getprop"; lit "init.svc.adbd"] (sample_device, [])))
              (lit " running " ++ [CR; LF]) [] eq_refl) as (Hvalue & _ & _ & _).
  refine (f_equal fst (Hvalue (lit " running ") [CR; LF] eq_refl _ _ _)).
  - unfold line_ends. compute_done.
  - split; compute_done.
  - by vm_compute.
Defined.

(** ** A whole device listing *)

Section WholeListing.

Implicit Types (c : ascii) (s cur v rest eol : str).

Lemma splitlines_from_step v eol rest cur :
  no_eol v -> eol ∈ [[LF]; [CR; LF]] ->
  splitlines_from cur (v ++ eol ++ rest)
    = (rev cur ++ v) :: splitlines_from [] rest.
Proof.
  intros Hv Heol. revert cur. induction v as [|c v IH]; intros cur.
  - rewrite app_nil_r.
    repeat (apply elem_of_cons in Heol as [->|Heol]); try done.
    by apply elem_of_nil in Heol.
  - apply no_eol_cons in Hv as (Hlf & Hcr & Hv).
    cbn [app splitlines_from]. rewrite Hlf, Hcr, IH by done.
    simpl. by rewrite <- app_assoc.
Qed.

Lemma splitlines_from_lines (lines : list str) eol :
  Forall no_eol lines -> eol ∈ [[LF]; [CR; LF]] ->
  splitlines_from [] (concat (map (fun l => l ++ eol) lines)) = lines.
Proof.
  intros Hall Heol. induction Hall as [|l lines Hl _ IH]; [done|].
  cbn [map concat]. rewrite <- app_assoc.
  rewrite splitlines_from_step by done. by rewrite IH.
Qed.

Lemma no_space_no_eol s : no_space s -> no_eol s.
Proof.
  intros Hs. split; intros Hin; by apply Hs in Hin.
Qed.

Lemma no_eol_app s v : no_eol s -> no_eol v -> no_eol (s ++ v).
Proof.
  unfold no_eol. rewrite !elem_of_app. tauto.
Qed.

End WholeListing.

(** X4.  On the output of a device listing that is a header line and
    then, for each device, a line with its serial (not empty, without
    whitespace), a tab and its state, all lines ending in LF or all in
    CR LF, [get_devices] skips the header whatever it says and returns,
    in the order listed, the serial of every line in which the text
    [offline] does not occur; both processes have then run. *)
Theorem get_devices_listing (h : host) (adb_path : str) (t : trace)
    (header eol : str) (entries : list (str * str)) :
  let start := [adb_path; lit "start-server"] in
  let listing := [adb_path; lit "devices"] in
  let p := run h (t ++ [start]) listing in
  returncode (run h t start) = 0%Z ->
  returncode p = 0%Z ->
  eol ∈ [[LF]; [CR; LF]] ->
  no_eol header ->
  Forall (fun e => e.1 <> [] /\ no_space e.1 /\ no_eol e.2) entries ->
  stdout p
    = header ++ eol
        ++ concat (map (fun l => l ++ eol)
                     (map (fun e => device_line e.1 e.2) entries)) ->
  get_devices h adb_path t
    = (Return (map fst
                 (filter
                    (fun e => contains (lit "offline") (device_line e.1 e.2)
                              = false)
                    entries)),
       t ++ [start; listing]).
Proof.
  intros start listing p H0 H1 Heol Hheader Hentries Hout.
  rewrite (get_devices_run h adb_path t H0 H1). fold start listing p.
  rewrite <- app_assoc. f_equal.
  rewrite Hout. unfold splitlines.
  rewrite splitlines_from_step by done.
  rewrite splitlines_from_lines; [|  |done].
  - change (slice_from 1 ((rev [] ++ header) :: ?l)) with (drop
      (slice_index (len ((rev [] ++ header) :: l)) 1) ((rev [] ++ header) :: l)).
    assert (Hone : forall (x : str) (l : list str),
              slice_index (len (x :: l)) 1 = 1).
    { intros x l. unfold slice_index, len. simpl length. cbv zeta.
      change (1 <? 0)%Z with false. cbv iota. lia. }
    rewrite Hone. cbn [drop]. rewrite drop_0.
    rewrite get_devices_loop_listing; [done|].
    eapply Forall_impl; [exact Hentries|]. by intros e (? & ? & ?).
  - apply Forall_fmap. eapply Forall_impl; [exact Hentries|].
    intros e (_ & Hs & Hst). unfold device_line. cbn [app].
    apply no_eol_app; [by apply no_space_no_eol|].
    apply no_eol_cons. split; [reflexivity|]. split; [reflexivity|done].
Qed.

Lemma get_devices_listing_witness :
  get_devices
      (sample_host []
         (lit "List of devices attached" ++ [LF]
            ++ concat (map (fun l => l ++ [LF])
                         (map (fun e => device_line e.1 e.2)
                            [(lit "emulator-5554", lit "device");
                             (lit "abc123", lit "offline");
                             (lit "0123456789ABCDEF", lit "unauthorized")])))
         None)
      (lit "adb") []
    = (Return [lit "emulator-5554"; lit "0123456789ABCDEF"],
       [[lit "adb"; lit "start-server"]; [lit "adb"; lit "devices"]]).
Proof.
  apply (get_devices_listing
           (sample_host []
              (lit "List of devices attached" ++ [LF]
                 ++ concat (map (fun l => l ++ [LF])
                              (map (fun e => device_line e.1 e.2)
                                 [(lit "emulator-5554", lit "device");
                                  (lit "abc123", lit "offline");
                                  (lit "0123456789ABCDEF", lit "unauthorized")])))
              None)
           (lit "adb") [] (lit "List of devices attached") [LF]
           [(lit "emulator-5554", lit "device");
            (lit "abc123", lit "offline");
            (lit "0123456789ABCDEF", lit "unauthorized")]);
    try reflexivity.
  - compute_done.
  - split; compute_done.
  - repeat constructor; try done; try compute_done;
      intros c Hc;
      repeat (apply elem_of_cons in Hc as [->|Hc]; [reflexivity|]);
      by apply elem_of_nil in Hc.
Defined.
